(** * backend/server.js: history cleaner and the /api/chat handler

    A shallow embedding of the chat backend: the JSON values the handler
    receives, the JavaScript operations it applies to them (property reads,
    truthiness, [trim], [includes], [toLowerCase]), [sanitizeHistory], and the
    request handler with its two providers.  The source file exists in three
    revisions, which differ in the model table, in the choice between the two
    primary models and in the label of the reply; [sanitizeHistory], the
    secondary branch and the catch handler are the same in all three.

    The browser side, public/client.js, is embedded next to it: [setStatus],
    [addMessage], [sendMessage] and the theme toggle, so that a request can
    be followed from the input field to the handler and back. *)

From Stdlib Require Import List NArith ZArith Bool String Ascii Lia.
Import ListNotations.
Set Warnings "-register-all".
Local Open Scope N_scope.
Local Open Scope list_scope.

(** ** JavaScript strings *)

(** A JavaScript string is a sequence of UTF-16 code units. *)
Definition jsstring := list N.

(** An ASCII literal of the source, as code units. *)
Fixpoint lit (s : string) : jsstring :=
  match s with
  | EmptyString => []
  | String c s' => N_of_ascii c :: lit s'
  end.
Arguments lit : simpl never.

Fixpoint str_eqb (a b : jsstring) : bool :=
  match a, b with
  | [], [] => true
  | x :: a', y :: b' => N.eqb x y && str_eqb a' b'
  | _, _ => false
  end.

Fixpoint starts_with (p s : jsstring) : bool :=
  match p, s with
  | [], _ => true
  | x :: p', y :: s' => N.eqb x y && starts_with p' s'
  | _ :: _, [] => false
  end.

(** [s.includes(p)] *)
Fixpoint includes (s p : jsstring) : bool :=
  starts_with p s ||
  match s with
  | [] => false
  | _ :: s' => includes s' p
  end.

(** WhiteSpace and LineTerminator code units of ECMAScript, the ones
    [String.prototype.trim] strips. *)
Definition is_white_space (c : N) : bool :=
  existsb (N.eqb c)
    [0x9; 0xA; 0xB; 0xC; 0xD; 0x20; 0xA0; 0x1680; 0x2028; 0x2029; 0x202F;
     0x205F; 0x3000; 0xFEFF]
  || ((0x2000 <=? c) && (c <=? 0x200A)).

Fixpoint trim_start (s : jsstring) : jsstring :=
  match s with
  | [] => []
  | c :: s' => if is_white_space c then trim_start s' else s
  end.

(** [s.trim()] *)
Definition trim (s : jsstring) : jsstring :=
  rev (trim_start (rev (trim_start s))).

(** Blank text: empty or made of white space only. *)
Definition blank (s : jsstring) : bool := forallb is_white_space s.

Definition is_ascii (c : N) : bool := c <? 128.

Definition ascii_lower (c : N) : N :=
  if (65 <=? c) && (c <=? 90) then c + 32 else c.

(** [s.replace(p, r)] with a string pattern: the first occurrence only. *)
Fixpoint replace_first (s p r : jsstring) : jsstring :=
  if starts_with p s then r ++ skipn (List.length p) s
  else match s with
       | [] => []
       | c :: s' => c :: replace_first s' p r
       end.

(** ** JSON values, as [express.json()] hands them to the handler *)

(** Numbers are only observed through their truthiness; an integer stands for
    the number. An object lists its own properties, each name once.
    [VUndefined] is the value of an absent property. *)
Inductive value : Type :=
| VUndefined
| VNull
| VBool (b : bool)
| VNum (n : Z)
| VStr (s : jsstring)
| VArr (items : list value)
| VObj (fields : list (jsstring * value)).

Definition nullish (v : value) : bool :=
  match v with
  | VUndefined | VNull => true
  | _ => false
  end.

(** ToBoolean *)
Definition truthy (v : value) : bool :=
  match v with
  | VUndefined | VNull => false
  | VBool b => b
  | VNum n => negb (Z.eqb n 0)
  | VStr s => match s with [] => false | _ => true end
  | VArr _ | VObj _ => true
  end.

(** [v === "..."] against a string literal *)
Definition is_str (v : value) (s : jsstring) : bool :=
  match v with
  | VStr t => str_eqb t s
  | _ => false
  end.

Fixpoint lookup (k : jsstring) (fields : list (jsstring * value)) : value :=
  match fields with
  | [] => VUndefined
  | (k', v) :: rest => if str_eqb k' k then v else lookup k rest
  end.

(** [v.k] on a value that is neither null nor undefined, for a property name
    [k] that no built-in prototype defines and that is not an index (role,
    content, choices, message): an own property of an object, undefined on
    everything else. *)
Definition field (v : value) (k : jsstring) : value :=
  match v with
  | VObj fields => lookup k fields
  | _ => VUndefined
  end.

(** [v[0]] on a value that is neither null nor undefined *)
Definition index0 (v : value) : value :=
  match v with
  | VArr (x :: _) => x
  | VStr (c :: _) => VStr [c]
  | VObj fields => lookup (lit "0") fields
  | _ => VUndefined
  end.

(** ** Exceptions *)

Inductive type_error : Type :=
| ReadOfNullish (base : value) (prop : jsstring)
    (* Cannot read properties of null/undefined (reading 'prop') *)
| NotAFunction (callee : jsstring).
    (* callee is not a function *)

Inductive exn : Type :=
| TypeError (t : type_error)
| ProviderError (message : jsstring).
    (* thrown by the provider SDK, by fetch or by response.json() *)

Inductive outcome (A : Type) : Type :=
| Returns (a : A)
| Throws (e : exn).
Arguments Returns {A} a.
Arguments Throws {A} e.

Definition bind {A B} (m : outcome A) (k : A -> outcome B) : outcome B :=
  match m with
  | Returns a => k a
  | Throws e => Throws e
  end.

Notation "x <- m ;; k" := (bind m (fun x => k))
  (at level 61, m at next level, right associativity).

(** [v.k], which throws on null and undefined *)
Definition get (v : value) (k : jsstring) : outcome value :=
  if nullish v then Throws (TypeError (ReadOfNullish v k))
  else Returns (field v k).

(** [Array.prototype.map] with a callback that may throw: the callback runs on
    the elements in order and the first exception aborts the call. *)
Fixpoint map_throwing {A B} (f : A -> outcome B) (l : list A) : outcome (list B) :=
  match l with
  | [] => Returns []
  | x :: l' =>
      y <- f x ;;
      ys <- map_throwing f l' ;;
      Returns (y :: ys)
  end.

(** [Array.prototype.filter], likewise *)
Fixpoint filter_throwing {A} (p : A -> outcome bool) (l : list A) : outcome (list A) :=
  match l with
  | [] => Returns []
  | x :: l' =>
      b <- p x ;;
      ys <- filter_throwing p l' ;;
      Returns (if b then x :: ys else ys)
  end.

(** ** The history cleaner *)

(** The object literal [{ role: ..., parts: [{ text: ... }] }]. *)
Record formatted_turn : Type := Formatted {
  role : jsstring;
  text : value
}.

(** The JavaScript value of a formatted turn, and of the returned array. *)
Definition turn_value (m : formatted_turn) : value :=
  VObj [(lit "role", VStr (role m));
        (lit "parts", VArr [VObj [(lit "text", text m)]])].

Definition history_value (r : list formatted_turn) : value :=
  VArr (map turn_value r).

(** The callback of [history.map]: [msg.role] is read first, then
    [msg.content]. *)
Definition format (msg : value) : outcome formatted_turn :=
  r <- get msg (lit "role") ;;
  c <- get msg (lit "content") ;;
  Returns (Formatted (if is_str r (lit "user") then lit "user" else lit "model") c).

(** [t.trim()] on an arbitrary value: only strings have the method. *)
Definition call_trim (t : value) : outcome jsstring :=
  match t with
  | VStr s => Returns (trim s)
  | VUndefined | VNull => Throws (TypeError (ReadOfNullish t (lit "trim")))
  | _ => Throws (TypeError (NotAFunction (lit "m.parts[0].text.trim")))
  end.

(** The callback of [formatted.filter]:
    the text is truthy and its [trim()] is not the empty string; [filter]
    coerces the value of the conjunction to a boolean. *)
Definition keep (m : formatted_turn) : outcome bool :=
  if truthy (text m) then
    s <- call_trim (text m) ;;
    Returns (negb (str_eqb s []))
  else Returns false.

(** [while (formatted.length > 0 && formatted[0].role !== "user")
    formatted.shift();] *)
Fixpoint shift_leading (formatted : list formatted_turn) : list formatted_turn :=
  match formatted with
  | [] => []
  | m :: rest =>
      if negb (str_eqb (role m) (lit "user")) then shift_leading rest
      else formatted
  end.

Definition sanitizeHistory (history : value) : outcome (list formatted_turn) :=
  match history with
  | VArr [] => Returns []
  | VArr items =>
      formatted <- map_throwing format items ;;
      formatted <- filter_throwing keep formatted ;;
      Returns (shift_leading formatted)
  | _ => Returns []
  end.

(** A cleaned history read back as a client history: each
    [{ role, parts: [{ text }] }] as the turn [{ role, content: text }]. *)
Definition as_turn (m : formatted_turn) : value :=
  VObj [(lit "role", VStr (role m)); (lit "content", text m)].

Definition as_history (r : list formatted_turn) : value :=
  VArr (map as_turn r).

(** ** The request handler *)

Inductive revision : Type := Rev1 | Rev2 | Rev3.

Definition MODEL_FLASH (rev : revision) : jsstring :=
  match rev with
  | Rev1 | Rev2 => lit "gemini-2.5-flash"
  | Rev3 => lit "gemini-2.0-flash-exp"
  end.

Definition MODEL_PRO (rev : revision) : jsstring :=
  match rev with
  | Rev1 | Rev2 => lit "gemini-2.5-pro"
  | Rev3 => lit "gemini-2.0-pro-exp-02-05"
  end.

Definition MODEL_GROQ : jsstring := lit "llama-3.1-8b-instant".

(** [const targetModelName = ...]: revisions 1 and 2 test for "flash",
    revision 3 tests for "pro". *)
Definition targetModelName (rev : revision) (requestedType : jsstring) : jsstring :=
  match rev with
  | Rev1 | Rev2 =>
      if includes requestedType (lit "flash") then MODEL_FLASH rev else MODEL_PRO rev
  | Rev3 =>
      if includes requestedType (lit "pro") then MODEL_PRO rev else MODEL_FLASH rev
  end.

(** The name shown in [via]: revision 2 removes the "gemini-" prefix. *)
Definition displayModelName (rev : revision) (target : jsstring) : jsstring :=
  match rev with
  | Rev2 => replace_first target (lit "gemini-") []
  | Rev1 | Rev3 => target
  end.

(** The condition of the [if] that chooses between the two providers. *)
Definition gemini_mode (requestedType : jsstring) : bool :=
  includes requestedType (lit "gemini")
  || includes requestedType (lit "flash")
  || includes requestedType (lit "pro").

Inductive provider : Type :=
| Primary (model : jsstring)
| Secondary.

Definition select_provider (rev : revision) (requestedType : jsstring) : provider :=
  if gemini_mode requestedType then Primary (targetModelName rev requestedType)
  else Secondary.

(** An outbound call: [chat.sendMessage(message)] on a session of the primary
    provider, or the POST to the completions endpoint of the secondary one. *)
Inductive call : Type :=
| GeminiCall (model systemInstruction : jsstring)
    (history : list formatted_turn) (message : value)
| GroqCall (model : jsstring) (messages : list value).

(** What one request did: the value handed to [res.json], or the exception
    that left the handler, and the outbound calls it made. *)
Record run : Type := Run {
  result : outcome value;
  calls : list call
}.

Definition output (content : value) (via : option jsstring) : value :=
  VObj [(lit "output",
         VObj ([(lit "role", VStr (lit "assistant")); (lit "content", content)]
               ++ match via with
                  | Some label => [(lit "via", VStr label)]
                  | None => []
                  end))].

(** ["\u274C Error: AI Key Missing"] *)
Definition key_missing : value :=
  output (VStr (0x274C :: lit " Error: AI Key Missing")) None.

(** [data.choices?.[0]?.message?.content] *)
Definition first_choice_content (data : value) : outcome value :=
  choices <- get data (lit "choices") ;;
  if nullish choices then Returns VUndefined else
  let choice := index0 choices in
  if nullish choice then Returns VUndefined else
  let message := field choice (lit "message") in
  if nullish message then Returns VUndefined else
  Returns (field message (lit "content")).

(** The callback of [history.map] on the secondary path. *)
Definition groq_turn (msg : value) : outcome value :=
  r <- get msg (lit "role") ;;
  c <- get msg (lit "content") ;;
  Returns (VObj [(lit "role",
                  VStr (if is_str r (lit "user") then lit "user" else lit "assistant"));
                 (lit "content", c)]).

(** [history.map(...)] on the raw request value: only arrays have [map]. *)
Definition history_map (history : value) : outcome (list value) :=
  match history with
  | VArr items => map_throwing groq_turn items
  | VUndefined | VNull => Throws (TypeError (ReadOfNullish history (lit "map")))
  | _ => Throws (TypeError (NotAFunction (lit "history.map")))
  end.

(** What the handler takes from its surroundings. *)
Record environment : Type := Environment {
  (** [String.prototype.toLowerCase] on text that is not plain ASCII *)
  unicode_toLowerCase : jsstring -> jsstring;
  (** the message the engine gives a [TypeError] *)
  type_error_message : type_error -> jsstring;
  (** the persona text of each revision, a template literal that the handler
      passes on without reading it *)
  SYSTEM_INSTRUCTION_INDRESH : revision -> jsstring;
  (** [process.env.GEMINI_KEY] and [process.env.GROQ_KEY] *)
  env_GEMINI_KEY : option jsstring;
  env_GROQ_KEY : option jsstring;
  (** the providers: the text of the primary provider's response, or the
      parsed body of the secondary provider's response; either call may
      throw *)
  respond : call -> outcome value
}.

Section Handler.

Variable E : environment.

(** On ASCII text [toLowerCase] maps A-Z to a-z and nothing else. *)
Definition toLowerCase (s : jsstring) : jsstring :=
  if forallb is_ascii s then map ascii_lower s else unicode_toLowerCase E s.

(** The key read at start-up: the variable, or the empty string when it is
    unset, trimmed. *)
Definition env_key (e : option jsstring) : jsstring :=
  trim (match e with Some s => s | None => [] end).

Definition GEMINI_KEY : jsstring := env_key (env_GEMINI_KEY E).
Definition GROQ_KEY : jsstring := env_key (env_GROQ_KEY E).

(** [genAI] is null exactly when [GEMINI_KEY] is the empty string. *)
Definition genAI : bool := negb (str_eqb GEMINI_KEY []).

Definition error_message (e : exn) : jsstring :=
  match e with
  | TypeError t => type_error_message E t
  | ProviderError m => m
  end.

(** The reply of the catch handler. *)
Definition error_reply (e : exn) : value :=
  output (VStr ([0x26A0; 0xFE0F] ++ lit " Error: " ++ error_message e ++ lit ".")) None.

(** [(model || "gemini").toLowerCase()] *)
Definition requestedType (model : value) : outcome jsstring :=
  match (if truthy model then model else VStr (lit "gemini")) with
  | VStr s => Returns (toLowerCase s)
  | _ => Throws (TypeError (NotAFunction (lit "toLowerCase")))
  end.

Definition gemini_reply (rev : revision) (target : jsstring) (text : value) : value :=
  output text (Some (lit "Indresh (" ++ displayModelName rev target ++ lit ")")).

Definition groq_reply (content : value) : value :=
  output (if truthy content then content else VStr (lit "Error from API"))
         (Some (lit "Indresh (Turbo)")).

Definition groqMessages (rev : revision) (message history : value) : outcome (list value) :=
  turns <- history_map history ;;
  Returns ([VObj [(lit "role", VStr (lit "system"));
                  (lit "content", VStr (SYSTEM_INSTRUCTION_INDRESH E rev))]]
           ++ turns
           ++ [VObj [(lit "role", VStr (lit "user")); (lit "content", message)]]).

(** The body of the [try] block. *)
Definition try_block (rev : revision) (message history : value)
    (requested : jsstring) (geminiHistory : list formatted_turn) : run :=
  match select_provider rev requested with
  | Primary target =>
      if negb genAI then Run (Returns key_missing) []
      else
        let c := GeminiCall target (SYSTEM_INSTRUCTION_INDRESH E rev)
                            geminiHistory message in
        Run (text <- respond E c ;; Returns (gemini_reply rev target text)) [c]
  | Secondary =>
      if str_eqb GROQ_KEY [] then Run (Returns key_missing) []
      else
        match groqMessages rev message history with
        | Throws e => Run (Throws e) []
        | Returns messages =>
            let c := GroqCall MODEL_GROQ messages in
            Run (data <- respond E c ;;
                 content <- first_choice_content data ;;
                 Returns (groq_reply content)) [c]
        end
  end.

(** [try { ... } catch (error) { ... }] *)
Definition catching (r : run) : run :=
  match result r with
  | Returns _ => r
  | Throws e => Run (Returns (error_reply e)) (calls r)
  end.

(** [app.post("/api/chat", ...)]: [requestedType] and [geminiHistory] are
    computed before the [try] block is entered. *)
Definition chat (rev : revision) (message history model : value) : run :=
  match requestedType model with
  | Throws e => Run (Throws e) []
  | Returns requested =>
      match sanitizeHistory history with
      | Throws e => Run (Throws e) []
      | Returns geminiHistory =>
          catching (try_block rev message history requested geminiHistory)
      end
  end.

End Handler.

(** [const { message, history, model } = req.body], then the handler, on the
    object or array that [express.json()] leaves in [req.body]: an absent
    property is undefined. *)
Definition post_api_chat (E : environment) (rev : revision) (body : value) : run :=
  chat E rev (field body (lit "message")) (field body (lit "history"))
       (field body (lit "model")).

(** * public/client.js *)

(** ** The page *)

(** The element #api-status as [setStatus] leaves it. *)
Record status_line : Type := StatusLine {
  textContent : jsstring;
  color : jsstring;
  display : jsstring
}.

(** [setStatus(text, isError)], on a string *)
Definition setStatus (text : jsstring) (isError : bool) : status_line :=
  StatusLine text
    (if isError then lit "#ff6b6b" else [])
    (match text with [] => lit "none" | _ => lit "block" end).

(** A message appended to #chat-messages: the class of the wrapper, the name
    in the header and the value interpolated as the text. The time in the
    header is read from the clock and is left out. *)
Record bubble : Type := Bubble {
  className : jsstring;
  username : jsstring;
  message_text : value
}.

(** [addMessage(sender, text, isUser)] *)
Definition addMessage (sender : jsstring) (text : value) (isUser : bool) : bubble :=
  Bubble (if isUser then lit "message user" else lit "message ai")
         (if isUser then lit "You"
          else match sender with [] => lit "Indresh 2.0" | _ => sender end)
         text.

(** What [sendMessage] reads and writes: the flag [pending], the value of
    #user-input, whether #send-button is disabled, #api-status and the
    messages shown. *)
Record page : Type := Page {
  pending : bool;
  input_value : jsstring;
  send_disabled : bool;
  api_status : status_line;
  bubbles : list bubble
}.

(** What the browser provides. *)
Record browser : Type := Browser {
  (** [JSON.parse], which throws on text that is not JSON *)
  JSON_parse : jsstring -> outcome value;
  (** [JSON.stringify] on a parsed value *)
  JSON_stringify : value -> jsstring;
  (** the string that [+] appends for a value that is not a string *)
  ToString : value -> jsstring;
  (** [err.message] of a [TypeError] *)
  browser_type_error_message : type_error -> jsstring;
  (** the string that [+] appends for an exception *)
  error_ToString : exn -> jsstring
}.

(** The outcome of [fetch]: a rejection, or a response with [ok], [status]
    and a body whose reading may fail. *)
Inductive fetched : Type :=
| Rejected (err : exn)
| Responded (ok : bool) (status : Z) (body : outcome jsstring).

Definition DEFAULT_MODEL : jsstring := lit "deepseek_r1_0528".

(** ** sendMessage *)

(** [sendMessage(text)] up to the call of [fetch], on the string that both
    callers pass, [input.value]; [modelSelect] is the value of #model-select,
    [None] without that element. Returns the page and the body of the
    request, [None] when the function returns early. *)
Definition sendMessage_begin (modelSelect : option jsstring) (p : page)
    (text : jsstring) : page * option value :=
  if pending p then (p, None)
  else
    match trim text with
    | [] => (p, None)
    | trimmed =>
        let model :=
          match modelSelect with
          | Some (c :: v) => c :: v
          | Some [] | None => DEFAULT_MODEL
          end in
        (Page true [] true (setStatus (lit "Sending...") false)
              (bubbles p ++ [addMessage (lit "You") (VStr trimmed) true]),
         Some (VObj [(lit "message", VStr trimmed);
                     (lit "conversation_id", VStr (lit "diag"));
                     (lit "model", VStr model)]))
    end.

Section SendMessage.

Variable B : browser.

(** ['...' + v] *)
Definition append_value (s : jsstring) (v : value) : jsstring :=
  s ++ match v with VStr t => t | _ => ToString B v end.

Definition browser_error_message (e : exn) : jsstring :=
  match e with
  | TypeError t => browser_type_error_message B t
  | ProviderError m => m
  end.

(** The catch block: ['Network error: ' + (err.message || err)]. *)
Definition network_error (err : exn) : bubble * status_line :=
  (addMessage (lit "Indresh 2.0")
     (VStr (lit "Network error: "
            ++ match browser_error_message err with
               | [] => error_ToString B err
               | m => m
               end))
     false,
   setStatus (lit "Network error") true).

(** [try { const j = JSON.parse(txt); txt = j.message || txt; } catch(e){}] *)
Definition error_text (txt : jsstring) : value :=
  match (j <- JSON_parse B txt ;;
         m <- get j (lit "message") ;;
         Returns (if truthy m then m else VStr txt)) with
  | Returns v => v
  | Throws _ => VStr txt
  end.

(** The reply shown for a parsed body without [error]. *)
Definition shown_reply (data : value) : value :=
  let output := field data (lit "output") in
  if truthy output && truthy (field output (lit "content"))
  then field output (lit "content")
  else if truthy output then VStr (JSON_stringify B output)
  else VStr (JSON_stringify B data).

(** The body of the [try] block after [fetch] has settled, and the catch
    block: the message to add and the status to set. *)
Definition settle_try (f : fetched) : bubble * status_line :=
  match f with
  | Rejected err => network_error err
  | Responded false status body =>
      match body with
      | Throws err => network_error err
      | Returns txt =>
          let txt := error_text txt in
          (addMessage (lit "Indresh 2.0")
             (VStr (append_value (lit "Server error: ")
                      (if truthy txt then txt else VNum status)))
             false,
           setStatus (lit "Server error") true)
      end
  | Responded true status body =>
      match (txt <- body ;; data <- JSON_parse B txt ;;
             error <- get data (lit "error") ;; Returns (data, error)) with
      | Throws err => network_error err
      | Returns (data, error) =>
          if truthy error then
            (addMessage (lit "Indresh 2.0")
               (if truthy (field data (lit "message"))
                then field data (lit "message")
                else VStr (JSON_stringify B data))
               false,
             setStatus (lit "API error") true)
          else
            (addMessage (lit "Indresh 2.0") (shown_reply data) false,
             setStatus (lit "Connected") false)
      end
  end.

(** [sendMessage] from the moment [fetch] settles: the [try] block or the
    catch block, then the [finally] block. *)
Definition sendMessage_settle (p : page) (f : fetched) : page :=
  let (b, s) := settle_try f in
  Page false (input_value p) false s (bubbles p ++ [b]).

End SendMessage.

(** ** The theme *)

(** The attribute [data-theme] of the document element and the entry
    [theme] of [localStorage]; [None] is null. *)
Record theme_state : Type := ThemeState {
  data_theme : option jsstring;
  stored_theme : option jsstring
}.

(** [applySavedTheme()] *)
Definition applySavedTheme (t : theme_state) : theme_state :=
  let saved := match stored_theme t with Some (c :: s) => c :: s | _ => [] end in
  if str_eqb saved (lit "light") then ThemeState (Some (lit "light")) (stored_theme t)
  else ThemeState None (stored_theme t).

(** The click handler of #theme-btn *)
Definition toggle_theme (t : theme_state) : theme_state :=
  match data_theme t with
  | Some cur =>
      if str_eqb cur (lit "light") then ThemeState None None
      else ThemeState (Some (lit "light")) (Some (lit "light"))
  | None => ThemeState (Some (lit "light")) (Some (lit "light"))
  end.

(** ** Vocabulary of the properties *)

(** The elements of a history, none when it is not an array. *)
Definition elements (history : value) : list value :=
  match history with
  | VArr items => items
  | _ => []
  end.

Definition user_first (r : list formatted_turn) : Prop :=
  match r with
  | [] => True
  | m :: _ => role m = lit "user"
  end.

(** The invariant of a cleaned history. *)
Definition cleaned (r : list formatted_turn) : Prop :=
  Forall (fun m => (role m = lit "user" \/ role m = lit "model")
                   /\ keep m = Returns true) r
  /\ user_first r.

(** The turns on which neither callback throws: the element is not null, and
    its [content] is a string or is falsy. *)
Definition well_formed_turn (msg : value) : Prop :=
  nullish msg = false /\
  (truthy (field msg (lit "content")) = true ->
   exists s, field msg (lit "content") = VStr s).

(** ** Scenarios *)

Definition turn (r c : string) : value :=
  VObj [(lit "role", VStr (lit r)); (lit "content", VStr (lit c))].

(** [[{assistant, hi}, {user, hello}, {user, (empty)}]] *)
Definition scenario_A : value :=
  VArr [turn "assistant" "hi"; turn "user" "hello"; turn "user" EmptyString].

Definition user_hello : list formatted_turn :=
  [Formatted (lit "user") (VStr (lit "hello"))].

(** The messages of V8 for the two kinds of [TypeError]. *)
Definition v8_message (t : type_error) : jsstring :=
  match t with
  | ReadOfNullish base prop =>
      lit "Cannot read properties of "
      ++ (match base with VNull => lit "null" | _ => lit "undefined" end)
      ++ lit " (reading '" ++ prop ++ lit "')"
  | NotAFunction callee => callee ++ lit " is not a function"
  end.

(** A process with the given keys and providers. *)
Definition node (gemini_key groq_key : option jsstring)
    (providers : call -> outcome value) : environment :=
  {| unicode_toLowerCase := fun s => s;
     type_error_message := v8_message;
     SYSTEM_INSTRUCTION_INDRESH := fun _ => lit "You are Indresh 2.0";
     env_GEMINI_KEY := gemini_key;
     env_GROQ_KEY := groq_key;
     respond := providers |}.

(** Providers that are down. *)
Definition unreachable (c : call) : outcome value :=
  Throws (ProviderError (lit "fetch failed")).

(** A secondary provider that answers with a body of the given shape. *)
Definition answering (data : value) (c : call) : outcome value :=
  Returns data.

(** A turn on which one of the two callbacks throws: it is null or undefined,
    or its [content] is truthy and not a string. *)
Definition malformed_turn (msg : value) : bool :=
  nullish msg ||
  (truthy (field msg (lit "content")) &&
   match field msg (lit "content") with VStr _ => false | _ => true end).

(** A turn of the user with text that is not blank. *)
Definition user_turn_with_text (msg : value) : Prop :=
  field msg (lit "role") = VStr (lit "user") /\
  exists s, field msg (lit "content") = VStr s /\ blank s = false.

(** The callback of [history.map] on the secondary path, on an element that
    is neither null nor undefined. *)
Definition renamed (msg : value) : value :=
  VObj [(lit "role",
         VStr (if is_str (field msg (lit "role")) (lit "user")
               then lit "user" else lit "assistant"));
        (lit "content", field msg (lit "content"))].

(** A browser whose [JSON.parse] yields the given value. *)
Definition parsing_as (v : value) : browser :=
  {| JSON_parse := fun _ => Returns v;
     JSON_stringify := fun _ => lit "{}";
     ToString := fun _ => lit "[object Object]";
     browser_type_error_message := v8_message;
     error_ToString := fun _ => lit "Error" |}.

(** The page before the first message. *)
Definition fresh_page : page :=
  Page false (lit " namaste ") false (setStatus (lit "Ready") false) [].

(** * Properties *)

(** ** Strings *)

Lemma str_eqb_eq (a b : jsstring) : str_eqb a b = true <-> a = b.
Proof.
  revert b; induction a as [|x a IH]; intros [|y b]; simpl; split;
    try congruence; try reflexivity.
  - intros H. apply andb_true_iff in H as [Hx Hab].
    apply N.eqb_eq in Hx. apply IH in Hab. now subst.
  - intros H. injection H as -> ->.
    rewrite N.eqb_refl. simpl. now apply IH.
Qed.

Lemma str_eqb_refl (a : jsstring) : str_eqb a a = true.
Proof. now apply str_eqb_eq. Qed.

Lemma str_eqb_neq (a b : jsstring) : str_eqb a b = false <-> a <> b.
Proof.
  split.
  - intros H E. apply str_eqb_eq in E. congruence.
  - intros H. destruct (str_eqb a b) eqn:E; [|reflexivity].
    apply str_eqb_eq in E. contradiction.
Qed.

Lemma trim_start_nil (s : jsstring) : trim_start s = [] <-> blank s = true.
Proof.
  unfold blank. induction s as [|c s IH]; simpl.
  - tauto.
  - destruct (is_white_space c); simpl.
    + exact IH.
    + split; discriminate.
Qed.

Lemma trim_start_head (s : jsstring) (c : N) (s' : jsstring) :
  trim_start s = c :: s' -> is_white_space c = false.
Proof.
  induction s as [|d s IH]; simpl; [discriminate|].
  destruct (is_white_space d) eqn:E; [exact IH|].
  intros H. injection H as -> _. exact E.
Qed.

Lemma blank_app (a b : jsstring) : blank (a ++ b) = blank a && blank b.
Proof. apply forallb_app. Qed.

Lemma blank_rev (s : jsstring) : blank (rev s) = blank s.
Proof.
  induction s as [|c s IH]; simpl; [reflexivity|].
  rewrite blank_app, IH. simpl. rewrite andb_true_r. apply andb_comm.
Qed.

(** [trim] leaves the empty string exactly on blank text. *)
Lemma trim_nil (s : jsstring) : trim s = [] <-> blank s = true.
Proof.
  unfold trim. split.
  - intros H.
    assert (H1 : trim_start (rev (trim_start s)) = []).
    { destruct (trim_start (rev (trim_start s))) as [|d t]; [reflexivity|].
      simpl in H. now destruct (rev t). }
    apply trim_start_nil in H1. rewrite blank_rev in H1.
    destruct (trim_start s) as [|c s'] eqn:E.
    + now apply trim_start_nil.
    + apply trim_start_head in E. simpl in H1. rewrite E in H1. discriminate.
  - intros H. apply trim_start_nil in H. now rewrite H.
Qed.

(** ** The outcome monad and the throwing list operations *)

Lemma bind_Returns {A B} (m : outcome A) (k : A -> outcome B) (b : B) :
  bind m k = Returns b -> exists a, m = Returns a /\ k a = Returns b.
Proof. destruct m as [a|e]; simpl; [eauto | discriminate]. Qed.

Ltac inv_bind H :=
  let a := fresh "a" in
  let Ha := fresh "Ha" in
  apply bind_Returns in H as (a & Ha & H).

Lemma map_throwing_In {A B} (f : A -> outcome B) (l : list A) (r : list B) :
  map_throwing f l = Returns r ->
  forall y, In y r -> exists x, In x l /\ f x = Returns y.
Proof.
  revert r; induction l as [|x l IH]; simpl; intros r H y Hy.
  - injection H as <-. contradiction.
  - inv_bind H. inv_bind H. injection H as <-.
    destruct Hy as [<- | Hy].
    + eauto.
    + destruct (IH _ Ha0 _ Hy) as (x' & Hin & Hf). eauto.
Qed.

Lemma map_throwing_all {A B} (f : A -> outcome B) (g : B -> A) (r : list B) :
  Forall (fun y => f (g y) = Returns y) r ->
  map_throwing f (map g r) = Returns r.
Proof.
  induction 1 as [|y r Hy _ IH]; simpl; [reflexivity|].
  now rewrite Hy, IH.
Qed.

Lemma filter_throwing_In {A} (p : A -> outcome bool) (l r : list A) :
  filter_throwing p l = Returns r ->
  forall x, In x r -> In x l /\ p x = Returns true.
Proof.
  revert r; induction l as [|x l IH]; simpl; intros r H y Hy.
  - injection H as <-. contradiction.
  - inv_bind H. inv_bind H. injection H as <-.
    destruct a.
    + destruct Hy as [<- | Hy]; [auto|].
      destruct (IH _ Ha0 _ Hy). auto.
    + destruct (IH _ Ha0 _ Hy). auto.
Qed.

Lemma filter_throwing_all {A} (p : A -> outcome bool) (l : list A) :
  Forall (fun x => p x = Returns true) l ->
  filter_throwing p l = Returns l.
Proof.
  induction 1 as [|x l Hx _ IH]; simpl; [reflexivity|].
  now rewrite Hx, IH.
Qed.

(** ** The leading-turn loop *)

Lemma shift_leading_In (l : list formatted_turn) (m : formatted_turn) :
  In m (shift_leading l) -> In m l.
Proof.
  induction l as [|x l IH]; simpl; [tauto|].
  destruct (str_eqb (role x) (lit "user")); simpl; intros H.
  - exact H.
  - right. exact (IH H).
Qed.

Lemma shift_leading_user_first (l : list formatted_turn) :
  user_first (shift_leading l).
Proof.
  induction l as [|x l IH]; simpl; [exact I|].
  destruct (str_eqb (role x) (lit "user")) eqn:E; simpl; [|exact IH].
  now apply str_eqb_eq.
Qed.

Lemma shift_leading_fixed (l : list formatted_turn) :
  user_first l -> shift_leading l = l.
Proof.
  destruct l as [|x l]; simpl; [reflexivity|].
  intros ->. reflexivity.
Qed.

(** ** What [sanitizeHistory] returns *)

Lemma sanitizeHistory_eq (history : value) :
  sanitizeHistory history =
  (formatted <- map_throwing format (elements history) ;;
   formatted <- filter_throwing keep formatted ;;
   Returns (shift_leading formatted)).
Proof. destruct history as [| | | | |[|x l]|]; reflexivity. Qed.

Lemma sanitizeHistory_inv (history : value) (r : list formatted_turn) :
  sanitizeHistory history = Returns r ->
  exists mapped kept,
    map_throwing format (elements history) = Returns mapped /\
    filter_throwing keep mapped = Returns kept /\
    r = shift_leading kept.
Proof.
  rewrite sanitizeHistory_eq. intros H.
  inv_bind H. inv_bind H. injection H as <-. eauto.
Qed.

Lemma sanitizeHistory_In (history : value) (r : list formatted_turn) :
  sanitizeHistory history = Returns r ->
  forall m, In m r ->
    keep m = Returns true /\
    exists msg, In msg (elements history) /\ format msg = Returns m.
Proof.
  intros H m Hm.
  destruct (sanitizeHistory_inv _ _ H) as (mapped & kept & Hmap & Hkeep & ->).
  apply shift_leading_In in Hm.
  destruct (filter_throwing_In _ _ _ Hkeep _ Hm) as [Hin Hk].
  split; [exact Hk|].
  exact (map_throwing_In _ _ _ Hmap _ Hin).
Qed.

Lemma format_role (msg : value) (m : formatted_turn) :
  format msg = Returns m ->
  role m = lit "user" \/ role m = lit "model".
Proof.
  unfold format. intros H. inv_bind H. inv_bind H. injection H as <-. simpl.
  destruct (is_str a (lit "user")); auto.
Qed.

Lemma format_as_turn (m : formatted_turn) :
  role m = lit "user" \/ role m = lit "model" ->
  format (as_turn m) = Returns m.
Proof. destruct m as [r t]; simpl. intros [-> | ->]; reflexivity. Qed.

(** A formatted turn that passes the filter carries text that is a string
    and is not blank. *)
Lemma keep_true (m : formatted_turn) :
  keep m = Returns true ->
  exists s, text m = VStr s /\ blank s = false.
Proof.
  unfold keep. destruct (truthy (text m)) eqn:T; [|discriminate].
  intros H. inv_bind H. injection H as H.
  destruct (text m) as [| | | |s| |]; simpl in Ha; try discriminate.
  injection Ha as <-. exists s. split; [reflexivity|].
  apply negb_true_iff, str_eqb_neq in H.
  destruct (blank s) eqn:B; [|reflexivity].
  apply trim_nil in B. contradiction.
Qed.

Lemma sanitizeHistory_cleaned (history : value) (r : list formatted_turn) :
  sanitizeHistory history = Returns r -> cleaned r.
Proof.
  intros H. split.
  - apply Forall_forall. intros m Hm.
    destruct (sanitizeHistory_In _ _ H _ Hm) as (Hk & msg & _ & Hf).
    split; [exact (format_role _ _ Hf) | exact Hk].
  - destruct (sanitizeHistory_inv _ _ H) as (_ & kept & _ & _ & ->).
    apply shift_leading_user_first.
Qed.

Lemma sanitizeHistory_as_history (r : list formatted_turn) :
  cleaned r -> sanitizeHistory (as_history r) = Returns r.
Proof.
  intros [Hall Hfirst].
  rewrite sanitizeHistory_eq. unfold as_history, elements.
  rewrite (map_throwing_all format as_turn r).
  - simpl. rewrite filter_throwing_all.
    + simpl. now rewrite shift_leading_fixed.
    + eapply Forall_impl; [|exact Hall]. now intros m [_ Hk].
  - eapply Forall_impl; [|exact Hall]. intros m [Hr _].
    now apply format_as_turn.
Qed.

(** Applied to the array it has itself returned, [sanitizeHistory] finds no
    [content] property in any element and keeps nothing. *)
Lemma sanitizeHistory_history_value (r : list formatted_turn) :
  sanitizeHistory (history_value r) = Returns [].
Proof.
  rewrite sanitizeHistory_eq. unfold history_value, elements.
  assert (H : forall l, exists mapped,
             map_throwing format (map turn_value l) = Returns mapped /\
             filter_throwing keep mapped = Returns []).
  { induction l as [|m l (mapped & Hm & Hk)]; simpl.
    - now exists [].
    - eexists. rewrite Hm. simpl. split; [reflexivity|].
      simpl. now rewrite Hk. }
  destruct (H r) as (mapped & -> & Hk). simpl. now rewrite Hk.
Qed.

(** On a value that is not an array, and on an array of well-formed turns,
    [sanitizeHistory] returns. *)
Lemma sanitizeHistory_returns (history : value) :
  Forall well_formed_turn (elements history) ->
  exists r, sanitizeHistory history = Returns r.
Proof.
  intros H. rewrite sanitizeHistory_eq.
  assert (G : exists mapped kept,
             map_throwing format (elements history) = Returns mapped /\
             filter_throwing keep mapped = Returns kept).
  { induction H as [|msg l [Hn Hc] _ (mapped & kept & Hm & Hk)]; simpl.
    - exists [], []. split; reflexivity.
    - assert (Hf : exists m, format msg = Returns m /\
                             text m = field msg (lit "content")).
      { unfold format, get. rewrite Hn. simpl. eauto. }
      destruct Hf as (m & Hf & Ht). rewrite Hf. simpl. rewrite Hm. simpl.
      assert (Hb : exists b, keep m = Returns b).
      { unfold keep. rewrite Ht.
        destruct (truthy (field msg (lit "content"))) eqn:T; [|eauto].
        destruct (Hc eq_refl) as (s & ->). simpl. eauto. }
      destruct Hb as (b & Hb).
      eexists _, _. split; [reflexivity|]. simpl. rewrite Hb. simpl.
      rewrite Hk. reflexivity. }
  destruct G as (mapped & kept & -> & Hk). simpl. rewrite Hk. simpl. eauto.
Qed.

(** ** The scenarios, evaluated *)

Example scenario_A_cleaned : sanitizeHistory scenario_A = Returns user_hello.
Proof. reflexivity. Qed.

Example scenario_B_empty : sanitizeHistory (VArr []) = Returns [].
Proof. reflexivity. Qed.

Example sanitizeHistory_absent : sanitizeHistory VUndefined = Returns [].
Proof. reflexivity. Qed.

Example sanitizeHistory_null_element :
  sanitizeHistory (VArr [VNull]) =
  Throws (TypeError (ReadOfNullish VNull (lit "role"))).
Proof. reflexivity. Qed.

Example sanitizeHistory_number_content :
  sanitizeHistory (VArr [VObj [(lit "role", VStr (lit "user")); (lit "content", VNum 5)]]) =
  Throws (TypeError (NotAFunction (lit "m.parts[0].text.trim"))).
Proof. reflexivity. Qed.

(** ** Claims on the history cleaner *)

(** C1, as stated, fails: on the history [[{user, hello}]] the cleaner returns
    one turn, and the cleaner applied to that returned array returns the empty
    array, because the returned objects carry [parts[0].text] and no
    [content]. *)
Lemma sanitizeHistory_twice_counterexample :
  sanitizeHistory (VArr [turn "user" "hello"]) = Returns user_hello /\
  sanitizeHistory (history_value user_hello) = Returns [] /\
  (r <- sanitizeHistory (VArr [turn "user" "hello"]) ;;
   sanitizeHistory (history_value r))
  <> sanitizeHistory (VArr [turn "user" "hello"]).
Proof. repeat split; try reflexivity. discriminate. Qed.

(** C1, amended: cleaning is idempotent once the cleaned history is read back
    as a client history, each [{ role, parts: [{ text }] }] as the turn
    [{ role, content: text }]: cleaning that history returns the cleaned
    history again, for every input, an array or not; where the first cleaning
    throws there is nothing to clean again. *)
Theorem sanitizeHistory_idempotent (history : value) :
  (r <- sanitizeHistory history ;; sanitizeHistory (as_history r))
  = sanitizeHistory history.
Proof.
  destruct (sanitizeHistory history) as [r|e] eqn:H; simpl; [|reflexivity].
  apply sanitizeHistory_as_history. exact (sanitizeHistory_cleaned _ _ H).
Qed.

(** C2: whatever [sanitizeHistory] returns is empty or starts with a turn of
    role "user". *)
Theorem sanitizeHistory_leading_user (history : value) (r : list formatted_turn) :
  sanitizeHistory history = Returns r ->
  r = [] \/ exists m rest, r = m :: rest /\ role m = lit "user".
Proof.
  intros H. destruct (sanitizeHistory_cleaned _ _ H) as [_ Hfirst].
  destruct r as [|m rest]; [now left|]. right. exists m, rest. now split.
Qed.

Lemma sanitizeHistory_leading_user_witness :
  sanitizeHistory scenario_A = Returns user_hello /\
  (user_hello = [] \/ exists m rest, user_hello = m :: rest /\ role m = lit "user").
Proof.
  split; [reflexivity|].
  apply (sanitizeHistory_leading_user scenario_A). reflexivity.
Defined.

(** C4: every turn that [sanitizeHistory] returns has role "user" or "model"
    and comes from an element of the input: its text is that element's
    [content], unchanged, its role is "user" when the element's [role] is the
    string "user" and "model" for any other value of [role]. *)
Theorem sanitizeHistory_role_mapping (history : value) (r : list formatted_turn) :
  sanitizeHistory history = Returns r ->
  Forall (fun m =>
    (role m = lit "user" \/ role m = lit "model") /\
    exists msg source_role,
      In msg (elements history) /\
      get msg (lit "role") = Returns source_role /\
      get msg (lit "content") = Returns (text m) /\
      (source_role = VStr (lit "user") -> role m = lit "user") /\
      (source_role <> VStr (lit "user") -> role m = lit "model")) r.
Proof.
  intros H. apply Forall_forall. intros m Hm.
  destruct (sanitizeHistory_In _ _ H _ Hm) as (_ & msg & Hin & Hf).
  split; [exact (format_role _ _ Hf)|].
  unfold format in Hf. inv_bind Hf. inv_bind Hf. injection Hf as <-.
  exists msg, a. simpl. repeat split; try assumption.
  - intros ->. reflexivity.
  - intros Hne. destruct (is_str a (lit "user")) eqn:E; [|reflexivity].
    destruct a; simpl in E; try discriminate.
    apply str_eqb_eq in E. subst. contradiction.
Qed.

Lemma sanitizeHistory_role_mapping_witness :
  Forall (fun m =>
    (role m = lit "user" \/ role m = lit "model") /\
    exists msg source_role,
      In msg (elements scenario_A) /\
      get msg (lit "role") = Returns source_role /\
      get msg (lit "content") = Returns (text m) /\
      (source_role = VStr (lit "user") -> role m = lit "user") /\
      (source_role <> VStr (lit "user") -> role m = lit "model")) user_hello.
Proof. apply (sanitizeHistory_role_mapping scenario_A). reflexivity. Defined.

(** C5: the text of every turn that [sanitizeHistory] returns is a string
    that is not blank: neither empty nor made of white space only. *)
Theorem sanitizeHistory_no_blank (history : value) (r : list formatted_turn) :
  sanitizeHistory history = Returns r ->
  Forall (fun m => exists s, text m = VStr s /\ blank s = false) r.
Proof.
  intros H. apply Forall_forall. intros m Hm.
  destruct (sanitizeHistory_In _ _ H _ Hm) as (Hk & _).
  now apply keep_true.
Qed.

Lemma sanitizeHistory_no_blank_witness :
  Forall (fun m => exists s, text m = VStr s /\ blank s = false) user_hello.
Proof. apply (sanitizeHistory_no_blank scenario_A). reflexivity. Defined.

(** ** The handler *)

Section HandlerProperties.

Variable E : environment.

Lemma toLowerCase_gemini : toLowerCase E (lit "gemini") = lit "gemini".
Proof. reflexivity. Qed.

(** An absent, empty or otherwise falsy [model] stands for "gemini". *)
Lemma requestedType_falsy (model : value) :
  truthy model = false -> requestedType E model = Returns (lit "gemini").
Proof. unfold requestedType. now intros ->. Qed.

Lemma requestedType_string (s : jsstring) :
  s <> [] -> requestedType E (VStr s) = Returns (toLowerCase E s).
Proof. destruct s; [contradiction | reflexivity]. Qed.

(** A truthy [model] that is not a string has no [toLowerCase]. *)
Lemma requestedType_not_string (model : value) :
  truthy model = true -> (forall s, model <> VStr s) ->
  requestedType E model = Throws (TypeError (NotAFunction (lit "toLowerCase"))).
Proof.
  unfold requestedType. intros -> H.
  destruct model; try reflexivity. now destruct (H s).
Qed.

Lemma genAI_unset : env_GEMINI_KEY E = None -> genAI E = false.
Proof. unfold genAI, GEMINI_KEY. now intros ->. Qed.

Lemma catching_result (r : run) :
  exists reply, result (catching E r) = Returns reply.
Proof.
  unfold catching. destruct (result r) as [v|e] eqn:H.
  - exists v. exact H.
  - eexists. reflexivity.
Qed.

Lemma catching_calls (r : run) : calls (catching E r) = calls r.
Proof. unfold catching. now destruct (result r). Qed.

(** Once the [try] block is entered, the handler replies. *)
Lemma chat_replies (rev : revision) (message history model : value)
    (requested : jsstring) (geminiHistory : list formatted_turn) :
  requestedType E model = Returns requested ->
  sanitizeHistory history = Returns geminiHistory ->
  exists reply, result (chat E rev message history model) = Returns reply.
Proof.
  intros Hr Hs. unfold chat. rewrite Hr, Hs. apply catching_result.
Qed.

(** With "gemini" alone, revisions 1 and 2 take the pro model and revision 3
    the flash model. *)
Lemma targetModelName_gemini_alone (rev : revision) (requested : jsstring) :
  includes requested (lit "flash") = false ->
  includes requested (lit "pro") = false ->
  targetModelName rev requested =
  match rev with
  | Rev1 | Rev2 => MODEL_PRO rev
  | Rev3 => MODEL_FLASH rev
  end.
Proof. intros Hf Hp. destruct rev; simpl; now rewrite ?Hf, ?Hp. Qed.

Lemma select_provider_gemini_alone (rev : revision) (requested : jsstring) :
  rev <> Rev3 ->
  includes requested (lit "gemini") = true ->
  includes requested (lit "flash") = false ->
  includes requested (lit "pro") = false ->
  select_provider rev requested = Primary (MODEL_PRO rev).
Proof.
  intros Hrev Hg Hf Hp. unfold select_provider, gemini_mode.
  rewrite Hg. simpl. rewrite (targetModelName_gemini_alone rev requested Hf Hp).
  now destruct rev.
Qed.

(** Reading the first choice never throws on a body that is not null. *)
Lemma first_choice_content_returns (data : value) :
  nullish data = false -> exists v, first_choice_content data = Returns v.
Proof.
  intros H. unfold first_choice_content, get. rewrite H. simpl.
  destruct (nullish (field data (lit "choices"))); [eauto|].
  destruct (nullish (index0 (field data (lit "choices")))); [eauto|].
  destruct (nullish (field (index0 (field data (lit "choices"))) (lit "message")));
    eauto.
Qed.

Lemma history_map_not_array (history : value) :
  (forall items, history <> VArr items) ->
  exists t, history_map history = Throws (TypeError t).
Proof.
  intros H. destruct history; simpl; eauto. now destruct (H items).
Qed.

Lemma sanitizeHistory_not_array (history : value) :
  (forall items, history <> VArr items) -> sanitizeHistory history = Returns [].
Proof. intros H. destruct history; try reflexivity. now destruct (H items). Qed.

(** C3 fails on the code: [sanitizeHistory] runs before the [try] block, so
    with a history that holds a null element the exception of [msg.role]
    leaves the handler and no reply is produced; here [model] is absent. *)
Theorem chat_throws_on_null_turn (rev : revision) (message : value) :
  chat E rev message (VArr [VNull]) VUndefined =
  Run (Throws (TypeError (ReadOfNullish VNull (lit "role")))) [].
Proof. reflexivity. Qed.

(** Likewise [toLowerCase] is called before the [try] block: a [model] that
    is a number leaves the handler with an exception. *)
Lemma chat_throws_on_number_model (rev : revision) (message history : value) :
  chat E rev message history (VNum 5) =
  Run (Throws (TypeError (NotAFunction (lit "toLowerCase")))) [].
Proof. reflexivity. Qed.

(** C6 fails on revision 3: with the hint "gemini" and a configured primary
    provider, the one outbound call goes to the flash model, where revisions
    1 and 2 and the comment above the line choose the pro model. *)
Theorem rev3_gemini_calls_flash (message : value) :
  genAI E = true ->
  calls (chat E Rev3 message VUndefined (VStr (lit "gemini"))) =
  [GeminiCall (lit "gemini-2.0-flash-exp") (SYSTEM_INSTRUCTION_INDRESH E Rev3)
              [] message].
Proof.
  intros H. unfold chat. simpl. rewrite catching_calls.
  unfold try_block. rewrite toLowerCase_gemini.
  change (select_provider Rev3 (lit "gemini"))
    with (Primary (lit "gemini-2.0-flash-exp")).
  now rewrite H.
Qed.

(** C7: when the primary provider is selected and [genAI] is null, the
    handler makes no outbound call, and once the history has been cleaned
    its reply is the key-missing reply. *)
Theorem primary_key_missing (rev : revision) (message history model : value)
    (requested : jsstring) :
  requestedType E model = Returns requested ->
  gemini_mode requested = true ->
  genAI E = false ->
  calls (chat E rev message history model) = [] /\
  (forall geminiHistory, sanitizeHistory history = Returns geminiHistory ->
     chat E rev message history model = Run (Returns key_missing) []).
Proof.
  intros Hr Hm Hg.
  assert (Ht : forall geminiHistory,
             catching E (try_block E rev message history requested geminiHistory)
             = Run (Returns key_missing) []).
  { intros gh. unfold try_block, select_provider. now rewrite Hm, Hg. }
  unfold chat. rewrite Hr. split.
  - destruct (sanitizeHistory history); [now rewrite Ht | reflexivity].
  - intros gh ->. apply Ht.
Qed.

(** C8, amended: a hint that is a non-empty string whose lower-case form
    holds none of "gemini", "flash", "pro" selects the secondary provider:
    the handler calls no other provider, and with a secondary key and a
    history it can map it makes exactly the call to the secondary model. *)
Theorem secondary_selected (rev : revision) (message history : value) (s : jsstring) :
  s <> [] ->
  includes (toLowerCase E s) (lit "gemini") = false ->
  includes (toLowerCase E s) (lit "flash") = false ->
  includes (toLowerCase E s) (lit "pro") = false ->
  requestedType E (VStr s) = Returns (toLowerCase E s) /\
  select_provider rev (toLowerCase E s) = Secondary /\
  (forall c, In c (calls (chat E rev message history (VStr s))) ->
     exists messages, c = GroqCall MODEL_GROQ messages) /\
  (forall geminiHistory messages,
     str_eqb (GROQ_KEY E) [] = false ->
     sanitizeHistory history = Returns geminiHistory ->
     groqMessages E rev message history = Returns messages ->
     calls (chat E rev message history (VStr s)) = [GroqCall MODEL_GROQ messages]).
Proof.
  intros Hs Hgemini Hflash Hpro.
  assert (Hsel : select_provider rev (toLowerCase E s) = Secondary).
  { unfold select_provider, gemini_mode. now rewrite Hgemini, Hflash, Hpro. }
  repeat split.
  - now apply requestedType_string.
  - exact Hsel.
  - intros c. unfold chat. rewrite (requestedType_string s Hs).
    destruct (sanitizeHistory history) as [gh|e]; [|contradiction].
    rewrite catching_calls. unfold try_block. rewrite Hsel.
    destruct (str_eqb (GROQ_KEY E) []); [contradiction|].
    destruct (groqMessages E rev message history) as [messages|e];
      [|contradiction].
    simpl. intros [<- | []]. eauto.
  - intros gh messages Hk Hh Hg. unfold chat.
    rewrite (requestedType_string s Hs), Hh, catching_calls.
    unfold try_block. now rewrite Hsel, Hk, Hg.
Qed.


(** C10: on the secondary path a history that is absent or not an array is
    cleaned to the empty history before the [try] block, but [history.map]
    throws inside it: no call is made, and with a secondary key the reply is
    the one of the catch handler, with the message of that exception (without
    a key it is the key-missing reply). *)
Theorem secondary_history_not_array (rev : revision) (message history : value)
    (s : jsstring) :
  s <> [] ->
  gemini_mode (toLowerCase E s) = false ->
  (forall items, history <> VArr items) ->
  sanitizeHistory history = Returns [] /\
  calls (chat E rev message history (VStr s)) = [] /\
  (str_eqb (GROQ_KEY E) [] = false ->
   exists t, history_map history = Throws (TypeError t) /\
     result (chat E rev message history (VStr s))
     = Returns (error_reply E (TypeError t))) /\
  (str_eqb (GROQ_KEY E) [] = true ->
   result (chat E rev message history (VStr s)) = Returns key_missing).
Proof.
  intros Hs Hm Hh.
  pose proof (sanitizeHistory_not_array history Hh) as Hc.
  destruct (history_map_not_array history Hh) as (t & Ht).
  assert (Hg : groqMessages E rev message history = Throws (TypeError t)).
  { unfold groqMessages. now rewrite Ht. }
  unfold chat. rewrite (requestedType_string s Hs), Hc.
  unfold try_block, select_provider. rewrite Hm, Hg.
  split; [reflexivity|].
  destruct (str_eqb (GROQ_KEY E) []).
  - split; [reflexivity|]. split; [discriminate | reflexivity].
  - split; [reflexivity|]. split; [|discriminate].
    intros _. exists t. split; [exact Ht | reflexivity].
Qed.

End HandlerProperties.

(** ** The handler on concrete requests *)

Lemma rev3_gemini_calls_flash_witness :
  genAI (node (Some (lit "key")) None unreachable) = true /\
  calls (chat (node (Some (lit "key")) None unreachable) Rev3
              (VStr (lit "hi")) VUndefined (VStr (lit "gemini"))) =
  [GeminiCall (lit "gemini-2.0-flash-exp") (lit "You are Indresh 2.0")
              [] (VStr (lit "hi"))].
Proof.
  split; [reflexivity|].
  apply (rev3_gemini_calls_flash (node (Some (lit "key")) None unreachable)
           (VStr (lit "hi"))).
  reflexivity.
Defined.

(** Scenario D: no primary key, hint "gemini-pro". *)
Lemma primary_key_missing_witness :
  calls (chat (node None None unreachable) Rev1 (VStr (lit "hi")) scenario_A
              (VStr (lit "gemini-pro"))) = [] /\
  (forall geminiHistory, sanitizeHistory scenario_A = Returns geminiHistory ->
     chat (node None None unreachable) Rev1 (VStr (lit "hi")) scenario_A
          (VStr (lit "gemini-pro"))
     = Run (Returns key_missing) []).
Proof.
  apply (primary_key_missing (node None None unreachable) Rev1 (VStr (lit "hi"))
           scenario_A (VStr (lit "gemini-pro")) (lit "gemini-pro"));
    reflexivity.
Defined.

(** C8, as stated, fails on the empty hint: its lower-case form holds none of
    the three words, yet the handler replaces it by "gemini" and calls the
    primary provider. *)
Lemma empty_hint_counterexample :
  gemini_mode (toLowerCase (node (Some (lit "key")) (Some (lit "key")) unreachable) [])
  = false /\
  (requested <- requestedType (node (Some (lit "key")) (Some (lit "key")) unreachable)
                              (VStr []) ;;
   Returns (select_provider Rev1 requested))
  = Returns (Primary (lit "gemini-2.5-pro")) /\
  calls (chat (node (Some (lit "key")) (Some (lit "key")) unreachable) Rev1
              (VStr (lit "hi")) (VArr []) (VStr []))
  = [GeminiCall (lit "gemini-2.5-pro") (lit "You are Indresh 2.0") []
                (VStr (lit "hi"))].
Proof. repeat split. Qed.

(** Scenario C: the hint "groq-like-string". *)
Lemma secondary_selected_witness :
  requestedType (node None (Some (lit "key")) unreachable)
                (VStr (lit "groq-like-string"))
  = Returns (lit "groq-like-string") /\
  select_provider Rev1 (lit "groq-like-string") = Secondary /\
  calls (chat (node None (Some (lit "key")) unreachable) Rev1 (VStr (lit "hi"))
              scenario_A (VStr (lit "groq-like-string")))
  = [GroqCall (lit "llama-3.1-8b-instant")
       [VObj [(lit "role", VStr (lit "system"));
              (lit "content", VStr (lit "You are Indresh 2.0"))];
        turn "assistant" "hi"; turn "user" "hello"; turn "user" EmptyString;
        turn "user" "hi"]].
Proof.
  destruct (secondary_selected (node None (Some (lit "key")) unreachable) Rev1
              (VStr (lit "hi")) scenario_A (lit "groq-like-string"))
    as (Hr & Hs & _ & Hc);
    [discriminate | reflexivity | reflexivity | reflexivity |].
  split; [exact Hr|]. split; [exact Hs|].
  apply (Hc user_hello); reflexivity.
Defined.


(** The request of the bundled client: no [history], and a hint that names
    neither primary model. *)
Lemma secondary_history_not_array_witness :
  sanitizeHistory VUndefined = Returns [] /\
  calls (chat (node None (Some (lit "key")) unreachable) Rev1 (VStr (lit "hi"))
              VUndefined (VStr (lit "deepseek_r1_0528"))) = [] /\
  result (chat (node None (Some (lit "key")) unreachable) Rev1 (VStr (lit "hi"))
               VUndefined (VStr (lit "deepseek_r1_0528")))
  = Returns (output
      (VStr ([0x26A0; 0xFE0F]
             ++ lit " Error: Cannot read properties of undefined (reading 'map')."))
      None).
Proof.
  destruct (secondary_history_not_array (node None (Some (lit "key")) unreachable)
              Rev1 (VStr (lit "hi")) VUndefined (lit "deepseek_r1_0528"))
    as (Hs & Hc & Hr & _); [discriminate | reflexivity | discriminate |].
  split; [exact Hs|]. split; [exact Hc|].
  destruct (Hr eq_refl) as (t & Ht & ->).
  injection Ht as <-. reflexivity.
Defined.

(** A body that is null has no [choices] to read: the exception is caught
    and the reply carries its message. *)
Example secondary_null_body :
  result (chat (node None (Some (lit "key")) (answering VNull)) Rev1
               (VStr (lit "hi")) (VArr []) (VStr (lit "groq-like-string")))
  = Returns (output
      (VStr ([0x26A0; 0xFE0F]
             ++ lit " Error: Cannot read properties of null (reading 'choices')."))
      None).
Proof. reflexivity. Qed.

(** A provider that is down: the exception is caught. *)
Example primary_unreachable :
  chat (node (Some (lit "key")) None unreachable) Rev2 (VStr (lit "hi"))
       scenario_A (VStr (lit "FLASH-test"))
  = Run (Returns (output (VStr ([0x26A0; 0xFE0F] ++ lit " Error: fetch failed."))
                         None))
        [GeminiCall (lit "gemini-2.5-flash") (lit "You are Indresh 2.0")
                    user_hello (VStr (lit "hi"))].
Proof. reflexivity. Qed.

(** The label of revision 2 drops the "gemini-" prefix. *)
Example rev2_label :
  gemini_reply Rev2 (MODEL_FLASH Rev2) (VStr (lit "ok"))
  = output (VStr (lit "ok")) (Some (lit "Indresh (2.5-flash)")).
Proof. reflexivity. Qed.

(** * Further properties of the history cleaner *)

Lemma malformed_turn_false (msg : value) :
  malformed_turn msg = false <-> well_formed_turn msg.
Proof.
  unfold malformed_turn, well_formed_turn. split.
  - intros H. apply orb_false_iff in H as [Hn Hc]. split; [exact Hn|].
    intros T. rewrite T in Hc. simpl in Hc.
    destruct (field msg (lit "content")); try discriminate. eauto.
  - intros [Hn Hc]. rewrite Hn. simpl.
    destruct (truthy (field msg (lit "content"))) eqn:T; [|reflexivity].
    destruct (Hc eq_refl) as (s & ->). reflexivity.
Qed.

Lemma format_returns (msg : value) (m : formatted_turn) :
  format msg = Returns m ->
  nullish msg = false /\
  m = Formatted (if is_str (field msg (lit "role")) (lit "user")
                 then lit "user" else lit "model")
                (field msg (lit "content")).
Proof.
  unfold format, get. destruct (nullish msg); simpl; [discriminate|].
  intros H. injection H as <-. split; reflexivity.
Qed.

Lemma keep_returns (m : formatted_turn) (b : bool) :
  keep m = Returns b ->
  truthy (text m) = true -> exists s, text m = VStr s.
Proof.
  unfold keep. intros H T. rewrite T in H.
  destruct (text m); simpl in H; try discriminate. eauto.
Qed.

Lemma map_filter_well_formed (items : list value) :
  forall mapped kept,
    map_throwing format items = Returns mapped ->
    filter_throwing keep mapped = Returns kept ->
    existsb malformed_turn items = false.
Proof.
  induction items as [|msg items IH]; simpl; intros mapped kept Hm Hk.
  - reflexivity.
  - inv_bind Hm. inv_bind Hm. injection Hm as <-.
    simpl in Hk. inv_bind Hk. inv_bind Hk.
    rewrite (IH _ _ Ha0 Ha2), orb_false_r.
    apply malformed_turn_false.
    destruct (format_returns _ _ Ha) as [Hn ->]. split; [exact Hn|].
    intros T. exact (keep_returns _ _ Ha1 T).
Qed.

Lemma existsb_malformed_false (items : list value) :
  existsb malformed_turn items = false -> Forall well_formed_turn items.
Proof.
  induction items as [|msg items IH]; simpl; intros H; constructor.
  - apply orb_false_iff in H as [H _]. now apply malformed_turn_false.
  - apply orb_false_iff in H as [_ H]. now apply IH.
Qed.

Lemma sanitizeHistory_Returns_iff (history : value) :
  (exists r, sanitizeHistory history = Returns r) <->
  existsb malformed_turn (elements history) = false.
Proof.
  split.
  - intros (r & H).
    destruct (sanitizeHistory_inv _ _ H) as (mapped & kept & Hm & Hk & _).
    exact (map_filter_well_formed _ _ _ Hm Hk).
  - intros H. apply sanitizeHistory_returns. now apply existsb_malformed_false.
Qed.

(** [sanitizeHistory] throws exactly on an array that holds a malformed turn:
    an element that is null or undefined, or whose [content] is truthy and
    not a string. *)
Theorem sanitizeHistory_throws_iff (history : value) :
  (exists e, sanitizeHistory history = Throws e) <->
  existsb malformed_turn (elements history) = true.
Proof.
  pose proof (sanitizeHistory_Returns_iff history) as [Hr Hw].
  destruct (sanitizeHistory history) as [r|e] eqn:H.
  - split.
    + intros (e & He). discriminate.
    + intros Hm. rewrite Hr in Hm by eauto. discriminate.
  - split; [|eauto]. intros _.
    destruct (existsb malformed_turn (elements history)); [reflexivity|].
    destruct (Hw eq_refl) as (r & Hr'). discriminate.
Qed.

Lemma map_throwing_app {A B} (f : A -> outcome B) (l1 l2 : list A) (r : list B) :
  map_throwing f (l1 ++ l2) = Returns r ->
  exists r1 r2, map_throwing f l1 = Returns r1 /\
                map_throwing f l2 = Returns r2 /\ r = r1 ++ r2.
Proof.
  revert r; induction l1 as [|x l1 IH]; simpl; intros r H.
  - exists [], r. auto.
  - inv_bind H. inv_bind H. injection H as <-.
    destruct (IH _ Ha0) as (r1 & r2 & H1 & H2 & ->).
    exists (a :: r1), r2. rewrite Ha, H1. simpl. auto.
Qed.

Lemma filter_throwing_app {A} (p : A -> outcome bool) (l1 l2 r : list A) :
  filter_throwing p (l1 ++ l2) = Returns r ->
  exists r1 r2, filter_throwing p l1 = Returns r1 /\
                filter_throwing p l2 = Returns r2 /\ r = r1 ++ r2.
Proof.
  revert r; induction l1 as [|x l1 IH]; simpl; intros r H.
  - exists [], r. auto.
  - inv_bind H. inv_bind H. injection H as <-.
    destruct (IH _ Ha0) as (r1 & r2 & H1 & H2 & ->).
    exists (if a then x :: r1 else r1), r2. rewrite Ha, H1. simpl.
    repeat split; [exact H2|]. now destruct a.
Qed.

Lemma shift_leading_app (l1 l2 : list formatted_turn) :
  shift_leading (l1 ++ l2) =
  match shift_leading l1 with
  | [] => shift_leading l2
  | m :: rest => (m :: rest) ++ l2
  end.
Proof.
  induction l1 as [|x l1 IH]; simpl; [reflexivity|].
  destruct (str_eqb (role x) (lit "user")); simpl; [reflexivity | exact IH].
Qed.

(** A history that grows is cleaned by appending: when the cleaned form of
    [h1] is not empty, the cleaned form of [h1 ++ h2] is that list followed
    by the formatted turns of [h2] that pass the filter; when it is empty,
    it is the cleaned form of [h2] alone. *)
Theorem sanitizeHistory_app (h1 h2 : list value) (r1 r : list formatted_turn) :
  sanitizeHistory (VArr h1) = Returns r1 ->
  sanitizeHistory (VArr (h1 ++ h2)) = Returns r ->
  (r1 = [] /\ sanitizeHistory (VArr h2) = Returns r) \/
  (r1 <> [] /\ exists mapped kept,
     map_throwing format h2 = Returns mapped /\
     filter_throwing keep mapped = Returns kept /\
     r = r1 ++ kept).
Proof.
  intros H1 H.
  destruct (sanitizeHistory_inv _ _ H1) as (m1 & k1 & Hm1 & Hk1 & ->).
  destruct (sanitizeHistory_inv _ _ H) as (m & k & Hm & Hk & ->).
  simpl in Hm1, Hm.
  destruct (map_throwing_app _ _ _ _ Hm) as (m1' & m2 & Hm1' & Hm2 & ->).
  rewrite Hm1 in Hm1'. injection Hm1' as <-.
  destruct (filter_throwing_app _ _ _ _ Hk) as (k1' & k2 & Hk1' & Hk2 & ->).
  rewrite Hk1 in Hk1'. injection Hk1' as <-.
  rewrite shift_leading_app.
  destruct (shift_leading k1) as [|x rest].
  - left. split; [reflexivity|].
    rewrite sanitizeHistory_eq. simpl. rewrite Hm2. simpl. now rewrite Hk2.
  - right. split; [discriminate|]. exists m2, k2. auto.
Qed.

Lemma sanitizeHistory_app_witness :
  (user_hello = [] /\
   sanitizeHistory (VArr [turn "assistant" "ok"; turn "user" " "])
   = Returns (user_hello ++ [Formatted (lit "model") (VStr (lit "ok"))])) \/
  (user_hello <> [] /\ exists mapped kept,
     map_throwing format [turn "assistant" "ok"; turn "user" " "] = Returns mapped /\
     filter_throwing keep mapped = Returns kept /\
     user_hello ++ [Formatted (lit "model") (VStr (lit "ok"))] = user_hello ++ kept).
Proof.
  apply (sanitizeHistory_app (elements scenario_A)
           [turn "assistant" "ok"; turn "user" " "]); reflexivity.
Defined.

Lemma map_throwing_forward {A B} (f : A -> outcome B) (l : list A) (r : list B) :
  map_throwing f l = Returns r ->
  forall x, In x l -> exists y, f x = Returns y /\ In y r.
Proof.
  revert r; induction l as [|x l IH]; simpl; intros r H z Hz; [contradiction|].
  inv_bind H. inv_bind H. injection H as <-.
  destruct Hz as [<- | Hz].
  - exists a. simpl. auto.
  - destruct (IH _ Ha0 _ Hz) as (y & Hy & Hin). exists y. simpl. auto.
Qed.

Lemma filter_throwing_forward {A} (p : A -> outcome bool) (l r : list A) :
  filter_throwing p l = Returns r ->
  forall x, In x l -> p x = Returns true -> In x r.
Proof.
  revert r; induction l as [|x l IH]; simpl; intros r H z Hz Hp; [contradiction|].
  inv_bind H. inv_bind H. injection H as <-.
  destruct Hz as [<- | Hz].
  - rewrite Hp in Ha. injection Ha as <-. now left.
  - specialize (IH _ Ha0 _ Hz Hp). destruct a; simpl; auto.
Qed.

Lemma shift_leading_nil (l : list formatted_turn) :
  shift_leading l = [] <-> Forall (fun m => role m <> lit "user") l.
Proof.
  induction l as [|x l IH]; simpl.
  - split; auto.
  - destruct (str_eqb (role x) (lit "user")) eqn:E; simpl.
    + apply str_eqb_eq in E. split; [discriminate|].
      intros H. inversion H. contradiction.
    + apply str_eqb_neq in E. rewrite IH. split.
      * intros H. now constructor.
      * intros H. now inversion H.
Qed.

Lemma keep_text (s : jsstring) (r : jsstring) :
  blank s = false -> keep (Formatted r (VStr s)) = Returns true.
Proof.
  intros B. unfold keep. simpl.
  destruct s as [|c s]; [discriminate|]. simpl.
  destruct (str_eqb (trim (c :: s)) []) eqn:E; [|reflexivity].
  apply str_eqb_eq, trim_nil in E. congruence.
Qed.

(** When [sanitizeHistory] returns, the result is empty exactly when the
    history holds no turn of the user with text that is not blank. *)
Theorem sanitizeHistory_empty_iff (history : value) (r : list formatted_turn) :
  sanitizeHistory history = Returns r ->
  (r = [] <-> forall msg, In msg (elements history) -> ~ user_turn_with_text msg).
Proof.
  intros H.
  destruct (sanitizeHistory_inv _ _ H) as (mapped & kept & Hm & Hk & ->).
  rewrite shift_leading_nil. split.
  - intros Hall msg Hin (Hrole & s & Hs & Hb).
    destruct (map_throwing_forward _ _ _ Hm _ Hin) as (m & Hf & Hmapped).
    destruct (format_returns _ _ Hf) as [_ ->].
    rewrite Hrole, Hs in Hmapped.
    change (is_str (VStr (lit "user")) (lit "user")) with true in Hmapped.
    pose proof (filter_throwing_forward _ _ _ Hk _ Hmapped (keep_text s _ Hb)) as Hkept.
    rewrite Forall_forall in Hall. exact (Hall _ Hkept eq_refl).
  - intros Hno. apply Forall_forall. intros m Hin Hrole.
    destruct (filter_throwing_In _ _ _ Hk _ Hin) as [Hmapped Hkeep].
    destruct (map_throwing_In _ _ _ Hm _ Hmapped) as (msg & Hmsg & Hf).
    apply (Hno msg Hmsg).
    destruct (keep_true _ Hkeep) as (s & Hs & Hb).
    destruct (format_returns _ _ Hf) as [_ ->]. simpl in *.
    split.
    + destruct (field msg (lit "role")); simpl in Hrole; try discriminate.
      destruct (str_eqb s0 (lit "user")) eqn:E; [|discriminate].
      apply str_eqb_eq in E. now subst.
    + eauto.
Qed.

Lemma sanitizeHistory_empty_iff_witness :
  sanitizeHistory (VArr [turn "assistant" "hi"; turn "user" " "]) = Returns [] /\
  (@nil formatted_turn = [] <->
   forall msg,
     In msg (elements (VArr [turn "assistant" "hi"; turn "user" " "])) ->
     ~ user_turn_with_text msg).
Proof.
  split; [reflexivity|].
  apply (sanitizeHistory_empty_iff (VArr [turn "assistant" "hi"; turn "user" " "])).
  reflexivity.
Defined.

(** * Further properties of the handler *)

Section HandlerFurther.

Variable E : environment.

Lemma requestedType_throws_iff (model : value) :
  (exists e, requestedType E model = Throws e) <->
  (truthy model = true /\ forall s, model <> VStr s).
Proof.
  split.
  - intros (e & H). unfold requestedType in H.
    destruct (truthy model) eqn:T; [|discriminate].
    split; [reflexivity|]. intros s ->. discriminate.
  - intros [T H]. eexists. now apply requestedType_not_string.
Qed.

Lemma groq_turn_renamed (msg : value) (t : value) :
  groq_turn msg = Returns t -> t = renamed msg.
Proof.
  unfold groq_turn, get. destruct (nullish msg); simpl; [discriminate|].
  intros H. now injection H as <-.
Qed.

Lemma map_throwing_pure {A B} (f : A -> outcome B) (g : A -> B) (l : list A) (r : list B) :
  (forall x y, f x = Returns y -> y = g x) ->
  map_throwing f l = Returns r -> r = map g l.
Proof.
  intros Hf. revert r; induction l as [|x l IH]; simpl; intros r H.
  - now injection H as <-.
  - inv_bind H. inv_bind H. injection H as <-.
    now rewrite (Hf _ _ Ha), (IH _ Ha0).
Qed.

Lemma groqMessages_Returns (rev : revision) (message history : value)
    (messages : list value) :
  groqMessages E rev message history = Returns messages ->
  exists items,
    history = VArr items /\
    messages =
      VObj [(lit "role", VStr (lit "system"));
            (lit "content", VStr (SYSTEM_INSTRUCTION_INDRESH E rev))]
      :: map renamed items
         ++ [VObj [(lit "role", VStr (lit "user")); (lit "content", message)]].
Proof.
  unfold groqMessages. intros H. inv_bind H. injection H as <-.
  destruct history; simpl in Ha; try discriminate.
  exists items. split; [reflexivity|].
  now rewrite (map_throwing_pure _ renamed _ _ groq_turn_renamed Ha).
Qed.

(** The four ways through the [try] block. *)
Lemma try_block_cases (rev : revision) (message history : value)
    (requested : jsstring) (geminiHistory : list formatted_turn) :
  try_block E rev message history requested geminiHistory
  = Run (Returns key_missing) []
  \/ (gemini_mode requested = true /\
       try_block E rev message history requested geminiHistory
       = Run (text <- respond E (GeminiCall (targetModelName rev requested)
                                   (SYSTEM_INSTRUCTION_INDRESH E rev)
                                   geminiHistory message) ;;
              Returns (gemini_reply rev (targetModelName rev requested) text))
             [GeminiCall (targetModelName rev requested)
                         (SYSTEM_INSTRUCTION_INDRESH E rev) geminiHistory message])
  \/ (exists e,
        groqMessages E rev message history = Throws e /\
        try_block E rev message history requested geminiHistory
        = Run (Throws e) [])
  \/ (exists messages,
        groqMessages E rev message history = Returns messages /\
        try_block E rev message history requested geminiHistory
        = Run (data <- respond E (GroqCall MODEL_GROQ messages) ;;
               content <- first_choice_content data ;;
               Returns (groq_reply content))
              [GroqCall MODEL_GROQ messages]).
Proof.
  unfold try_block, select_provider.
  destruct (gemini_mode requested).
  - destruct (genAI E); simpl; auto.
  - destruct (str_eqb (GROQ_KEY E) []); [auto|].
    destruct (groqMessages E rev message history) as [messages|e]; eauto 7.
Qed.

Lemma chat_cases (rev : revision) (message history model : value) :
  (exists e, requestedType E model = Throws e /\
             chat E rev message history model = Run (Throws e) [])
  \/ (exists requested e,
        requestedType E model = Returns requested /\
        sanitizeHistory history = Throws e /\
        chat E rev message history model = Run (Throws e) [])
  \/ (exists requested geminiHistory,
        requestedType E model = Returns requested /\
        sanitizeHistory history = Returns geminiHistory /\
        chat E rev message history model
        = catching E (try_block E rev message history requested geminiHistory)).
Proof.
  unfold chat.
  destruct (requestedType E model) as [requested|e]; [|eauto].
  destruct (sanitizeHistory history) as [gh|e]; eauto 8.
Qed.

Lemma targetModelName_cases (rev : revision) (requested : jsstring) :
  targetModelName rev requested = MODEL_FLASH rev \/
  targetModelName rev requested = MODEL_PRO rev.
Proof.
  destruct rev; simpl;
    try (destruct (includes requested (lit "flash")); auto);
    destruct (includes requested (lit "pro")); auto.
Qed.

(** One request makes at most one outbound call. *)
Theorem chat_at_most_one_call (rev : revision) (message history model : value) :
  (List.length (calls (chat E rev message history model)) <= 1)%nat.
Proof.
  destruct (chat_cases rev message history model)
    as [(e & _ & ->) | [(rq & e & _ & _ & ->) | (rq & gh & _ & _ & ->)]];
    simpl; try lia.
  rewrite catching_calls.
  destruct (try_block_cases rev message history rq gh)
    as [-> | [(_ & ->) | [(e & _ & ->) | (ms & _ & ->)]]]; simpl; lia.
Qed.

(** A call to the primary provider names the flash or the pro model of the
    revision, and carries the persona, the message as received and the
    cleaned history: one that is empty or starts with a turn of the user,
    with roles user and model only and no blank text. *)
Theorem primary_call_content (rev : revision) (message history model : value)
    (target persona : jsstring) (sent : list formatted_turn) (msg : value) :
  In (GeminiCall target persona sent msg) (calls (chat E rev message history model)) ->
  (target = MODEL_FLASH rev \/ target = MODEL_PRO rev) /\
  persona = SYSTEM_INSTRUCTION_INDRESH E rev /\
  msg = message /\
  sanitizeHistory history = Returns sent /\
  cleaned sent.
Proof.
  destruct (chat_cases rev message history model)
    as [(e & _ & ->) | [(rq & e & _ & _ & ->) | (rq & gh & _ & Hs & ->)]];
    simpl; try contradiction.
  rewrite catching_calls.
  destruct (try_block_cases rev message history rq gh)
    as [-> | [(_ & ->) | [(e & _ & ->) | (ms & _ & ->)]]]; simpl;
    try contradiction.
  - intros [H | []]. injection H as <- <- <- <-.
    repeat split; try assumption.
    + apply targetModelName_cases.
    + exact (proj1 (sanitizeHistory_cleaned _ _ Hs)).
    + exact (proj2 (sanitizeHistory_cleaned _ _ Hs)).
  - intros [H | []]. discriminate.
Qed.

(** A call to the secondary provider names the one secondary model and lists
    the persona, then every turn of the history in order, none dropped and
    none trimmed, with the role renamed to user or assistant, then the
    message as received. *)
Theorem secondary_call_content (rev : revision) (message history model : value)
    (name : jsstring) (messages : list value) :
  In (GroqCall name messages) (calls (chat E rev message history model)) ->
  name = lit "llama-3.1-8b-instant" /\
  exists items,
    history = VArr items /\
    messages =
      VObj [(lit "role", VStr (lit "system"));
            (lit "content", VStr (SYSTEM_INSTRUCTION_INDRESH E rev))]
      :: map renamed items
         ++ [VObj [(lit "role", VStr (lit "user")); (lit "content", message)]].
Proof.
  destruct (chat_cases rev message history model)
    as [(e & _ & ->) | [(rq & e & _ & _ & ->) | (rq & gh & _ & Hs & ->)]];
    simpl; try contradiction.
  rewrite catching_calls.
  destruct (try_block_cases rev message history rq gh)
    as [-> | [(_ & ->) | [(e & _ & ->) | (ms & Hg & ->)]]]; simpl;
    try contradiction.
  - intros [H | []]. discriminate.
  - intros [H | []]. injection H as <- <-. split; [reflexivity|].
    exact (groqMessages_Returns _ _ _ _ Hg).
Qed.

(** An exception leaves the handler exactly when [model] is truthy and not a
    string, or the history is an array that holds a malformed turn; whatever
    the keys and the providers; and then no outbound call has been made. *)
Theorem chat_throws_iff (rev : revision) (message history model : value) :
  ((exists e, result (chat E rev message history model) = Throws e) <->
   (truthy model = true /\ forall s, model <> VStr s) \/
   existsb malformed_turn (elements history) = true) /\
  (forall e, result (chat E rev message history model) = Throws e ->
     calls (chat E rev message history model) = []).
Proof.
  destruct (chat_cases rev message history model)
    as [(e & Hr & ->) | [(rq & e & Hr & Hs & ->) | (rq & gh & Hr & Hs & ->)]];
    simpl.
  - split; [|reflexivity]. split; [|eauto].
    intros _. left. apply requestedType_throws_iff. eauto.
  - split; [|reflexivity]. split; [|eauto].
    intros _. right.
    destruct (existsb malformed_turn (elements history)) eqn:M; [reflexivity|].
    apply sanitizeHistory_Returns_iff in M as (r & Hr'). congruence.
  - destruct (catching_result E (try_block E rev message history rq gh)) as (v & Hv).
    rewrite Hv. split.
    + split.
      * intros (e & He). discriminate.
      * intros [Hm | Hm].
        -- apply requestedType_throws_iff in Hm as (e & He). congruence.
        -- assert (M : existsb malformed_turn (elements history) = false)
             by (apply sanitizeHistory_Returns_iff; eauto).
           congruence.
    + intros e He. discriminate.
Qed.

(** Every reply is one of four. The key-missing reply, sent without a call.
    The reply of the catch handler, for an exception thrown by [history.map]
    before any call, by the one outbound call, or by the read of the first
    choice in the body that call returned. The text of the primary provider
    under the label "Indresh (...)" of the model that was called, after the
    one call, to the flash or pro model chosen for the hint and with the
    cleaned history, returned. Or the truthy first choice of the secondary
    provider, else "Error from API", under the label "Indresh (Turbo)",
    after the one call to the secondary model returned a body. *)
Theorem chat_reply_cases (rev : revision) (message history model v : value) :
  result (chat E rev message history model) = Returns v ->
  (v = output (VStr (0x274C :: lit " Error: AI Key Missing")) None /\
   calls (chat E rev message history model) = [])
  \/ (exists e,
        v = output (VStr ([0x26A0; 0xFE0F] ++ lit " Error: "
                          ++ error_message E e ++ lit ".")) None /\
        ((groqMessages E rev message history = Throws e /\
          calls (chat E rev message history model) = [])
         \/ (exists c,
               calls (chat E rev message history model) = [c] /\
               (respond E c = Throws e \/
                exists messages data,
                  c = GroqCall (lit "llama-3.1-8b-instant") messages /\
                  respond E c = Returns data /\
                  first_choice_content data = Throws e))))
  \/ (exists requested geminiHistory text,
        requestedType E model = Returns requested /\
        gemini_mode requested = true /\
        sanitizeHistory history = Returns geminiHistory /\
        calls (chat E rev message history model)
        = [GeminiCall (targetModelName rev requested)
                      (SYSTEM_INSTRUCTION_INDRESH E rev) geminiHistory message] /\
        respond E (GeminiCall (targetModelName rev requested)
                              (SYSTEM_INSTRUCTION_INDRESH E rev)
                              geminiHistory message) = Returns text /\
        v = output text
              (Some (lit "Indresh ("
                     ++ displayModelName rev (targetModelName rev requested)
                     ++ lit ")")))
  \/ (exists requested messages data content,
        requestedType E model = Returns requested /\
        gemini_mode requested = false /\
        groqMessages E rev message history = Returns messages /\
        calls (chat E rev message history model)
        = [GroqCall (lit "llama-3.1-8b-instant") messages] /\
        respond E (GroqCall (lit "llama-3.1-8b-instant") messages) = Returns data /\
        first_choice_content data = Returns content /\
        v = output (if truthy content then content
                    else VStr (lit "Error from API"))
                   (Some (lit "Indresh (Turbo)"))).
Proof.
  destruct (chat_cases rev message history model)
    as [(e & _ & ->) | [(rq & e & _ & _ & ->) | (rq & gh & Hr & Hs & ->)]];
    simpl; try discriminate.
  rewrite catching_calls.
  unfold try_block, select_provider.
  destruct (gemini_mode rq) eqn:Hm.
  - destruct (genAI E); unfold catching; simpl.
    + destruct (respond E _) as [text|e] eqn:Hc; simpl;
        intros H; injection H as <-.
      * right. right. left. exists rq, gh, text. repeat split; assumption.
      * right. left. exists e. split; [reflexivity|]. right.
        eexists. split; [reflexivity|]. left. exact Hc.
    + intros H. injection H as <-. left. split; reflexivity.
  - destruct (str_eqb (GROQ_KEY E) []); unfold catching; simpl.
    + intros H. injection H as <-. left. split; reflexivity.
    + destruct (groqMessages E rev message history) as [ms|e] eqn:Hg; simpl.
      * destruct (respond E _) as [data|e] eqn:Hc; simpl.
        -- destruct (first_choice_content data) as [content|e] eqn:Hf; simpl;
             intros H; injection H as <-.
           ++ right. right. right. exists rq, ms, data, content.
              repeat split; assumption.
           ++ right. left. exists e. split; [reflexivity|]. right.
              eexists. split; [reflexivity|]. right.
              exists ms, data. repeat split; assumption.
        -- intros H. injection H as <-.
           right. left. exists e. split; [reflexivity|]. right.
           eexists. split; [reflexivity|]. left. exact Hc.
      * intros H. injection H as <-.
        right. left. exists e. split; [reflexivity|]. left. split; reflexivity.
Qed.

(** When the outbound call throws, the reply is the one of the catch handler
    with the message of that exception. *)
Theorem provider_failure_caught (rev : revision) (message history model : value)
    (c : call) (e : exn) :
  In c (calls (chat E rev message history model)) ->
  respond E c = Throws e ->
  result (chat E rev message history model) = Returns (error_reply E e).
Proof.
  destruct (chat_cases rev message history model)
    as [(e' & _ & ->) | [(rq & e' & _ & _ & ->) | (rq & gh & _ & _ & ->)]];
    simpl; try contradiction.
  rewrite catching_calls.
  destruct (try_block_cases rev message history rq gh)
    as [-> | [(_ & ->) | [(e' & _ & ->) | (ms & _ & ->)]]];
    unfold catching; simpl; try contradiction.
  - intros [<- | []] Hc. now rewrite Hc.
  - intros [<- | []] Hc. now rewrite Hc.
Qed.

(** A [model] that is absent, null, empty or otherwise falsy is handled as
    the hint "gemini". *)
Theorem falsy_model_is_gemini (rev : revision) (message history model : value) :
  truthy model = false ->
  chat E rev message history model
  = chat E rev message history (VStr (lit "gemini")).
Proof.
  intros H. unfold chat. now rewrite (requestedType_falsy E model H).
Qed.

(** Hints in plain ASCII that differ only in the case of their letters are
    handled alike. *)
Theorem ascii_case_insensitive (rev : revision) (message history : value)
    (s t : jsstring) :
  forallb is_ascii s = true ->
  forallb is_ascii t = true ->
  map ascii_lower s = map ascii_lower t ->
  chat E rev message history (VStr s) = chat E rev message history (VStr t).
Proof.
  intros Hs Ht Hst.
  assert (Hr : requestedType E (VStr s) = requestedType E (VStr t)).
  { unfold requestedType, toLowerCase.
    destruct s as [|a s], t as [|b t]; try discriminate; [reflexivity|].
    simpl truthy. cbv iota. now rewrite Hs, Ht, Hst. }
  unfold chat. now rewrite Hr.
Qed.

(** A key counts as missing exactly when its variable is unset, empty or
    made of white space only. *)
Theorem keys_missing_iff :
  (genAI E = false <->
   match env_GEMINI_KEY E with Some s => blank s = true | None => True end) /\
  (str_eqb (GROQ_KEY E) [] = true <->
   match env_GROQ_KEY E with Some s => blank s = true | None => True end).
Proof.
  unfold genAI, GEMINI_KEY, GROQ_KEY, env_key. split.
  - rewrite negb_false_iff, str_eqb_eq.
    destruct (env_GEMINI_KEY E) as [s|]; [apply trim_nil | tauto].
  - rewrite str_eqb_eq.
    destruct (env_GROQ_KEY E) as [s|]; [apply trim_nil | tauto].
Qed.

(** On the secondary path a truthy content of the first choice is the
    content of the reply, as it is, under the label of the secondary
    provider. *)
Theorem secondary_first_choice (rev : revision) (message history : value)
    (s : jsstring) (c : call) (data content : value) :
  s <> [] ->
  gemini_mode (toLowerCase E s) = false ->
  In c (calls (chat E rev message history (VStr s))) ->
  respond E c = Returns data ->
  first_choice_content data = Returns content ->
  truthy content = true ->
  result (chat E rev message history (VStr s)) =
  Returns (output content (Some (lit "Indresh (Turbo)"))).
Proof.
  intros Hs Hm. unfold chat. rewrite (requestedType_string E s Hs).
  destruct (sanitizeHistory history) as [gh|e]; simpl; [|contradiction].
  rewrite catching_calls. unfold try_block, select_provider. rewrite Hm.
  destruct (str_eqb (GROQ_KEY E) []); simpl; [contradiction|].
  destruct (groqMessages E rev message history) as [ms|e]; simpl;
    [|contradiction].
  intros [<- | []] Hd Hc Ht. unfold catching. simpl.
  rewrite Hd. simpl. rewrite Hc. simpl. unfold groq_reply. now rewrite Ht.
Qed.

(** The label of revision 2 never shows the word "gemini": it is
    "Indresh (2.5-flash)" or "Indresh (2.5-pro)". *)
Theorem rev2_label_without_gemini (requested : jsstring) (text : value) :
  gemini_reply Rev2 (targetModelName Rev2 requested) text
  = output text (Some (lit "Indresh (2.5-flash)"))
  \/ gemini_reply Rev2 (targetModelName Rev2 requested) text
     = output text (Some (lit "Indresh (2.5-pro)")).
Proof.
  unfold targetModelName.
  destruct (includes requested (lit "flash")); [left | right]; reflexivity.
Qed.

End HandlerFurther.

(** ** Further requests, evaluated *)

Lemma primary_call_content_witness :
  (lit "gemini-2.5-flash" = MODEL_FLASH Rev1 \/ lit "gemini-2.5-flash" = MODEL_PRO Rev1) /\
  lit "You are Indresh 2.0"
  = SYSTEM_INSTRUCTION_INDRESH (node (Some (lit "key")) None unreachable) Rev1 /\
  VStr (lit "hi") = VStr (lit "hi") /\
  sanitizeHistory scenario_A = Returns user_hello /\
  cleaned user_hello.
Proof.
  apply (primary_call_content (node (Some (lit "key")) None unreachable) Rev1
           (VStr (lit "hi")) scenario_A (VStr (lit "FLASH-test"))).
  left. reflexivity.
Defined.

Lemma secondary_call_content_witness :
  lit "llama-3.1-8b-instant" = lit "llama-3.1-8b-instant" /\
  exists items,
    scenario_A = VArr items /\
    [VObj [(lit "role", VStr (lit "system"));
           (lit "content", VStr (lit "You are Indresh 2.0"))];
     turn "assistant" "hi"; turn "user" "hello"; turn "user" EmptyString;
     turn "user" "hi"]
    = VObj [(lit "role", VStr (lit "system"));
            (lit "content",
             VStr (SYSTEM_INSTRUCTION_INDRESH
                     (node None (Some (lit "key")) unreachable) Rev1))]
      :: map renamed items
         ++ [VObj [(lit "role", VStr (lit "user")); (lit "content", VStr (lit "hi"))]].
Proof.
  apply (secondary_call_content (node None (Some (lit "key")) unreachable) Rev1
           (VStr (lit "hi")) scenario_A (VStr (lit "groq-like-string"))).
  left. reflexivity.
Defined.

Lemma chat_throws_iff_witness :
  calls (chat (node None None unreachable) Rev1 (VStr (lit "hi")) (VArr [VNull])
              (VStr (lit "gemini"))) = [].
Proof.
  apply (proj2 (chat_throws_iff (node None None unreachable) Rev1 (VStr (lit "hi"))
                  (VArr [VNull]) (VStr (lit "gemini")))
               (TypeError (ReadOfNullish VNull (lit "role")))).
  reflexivity.
Defined.

Lemma chat_reply_cases_witness :
  exists requested geminiHistory text,
    requestedType (node (Some (lit "key")) None (answering (VStr (lit "namaste"))))
                  (VStr (lit "Gemini-Pro")) = Returns requested /\
    gemini_mode requested = true /\
    sanitizeHistory scenario_A = Returns geminiHistory /\
    calls (chat (node (Some (lit "key")) None (answering (VStr (lit "namaste"))))
                Rev2 (VStr (lit "hi")) scenario_A (VStr (lit "Gemini-Pro")))
    = [GeminiCall (targetModelName Rev2 requested) (lit "You are Indresh 2.0")
                  geminiHistory (VStr (lit "hi"))] /\
    text = VStr (lit "namaste") /\
    output (VStr (lit "namaste")) (Some (lit "Indresh (2.5-pro)"))
    = output text
        (Some (lit "Indresh ("
               ++ displayModelName Rev2 (targetModelName Rev2 requested)
               ++ lit ")")).
Proof.
  destruct (chat_reply_cases
              (node (Some (lit "key")) None (answering (VStr (lit "namaste"))))
              Rev2 (VStr (lit "hi")) scenario_A (VStr (lit "Gemini-Pro"))
              (output (VStr (lit "namaste")) (Some (lit "Indresh (2.5-pro)")))
              eq_refl)
    as [[H _] | [(e & H & _) | [(rq & gh & text & Hr & Hm & Hs & Hc & Ht & Hv)
                               | (rq & ms & data & content & Hr & Hm & _)]]].
  - discriminate H.
  - discriminate H.
  - exists rq, gh, text. repeat split; try assumption.
    simpl in Ht. now injection Ht as <-.
  - injection Hr as <-. discriminate Hm.
Defined.

Lemma provider_failure_caught_witness :
  result (chat (node (Some (lit "key")) None unreachable) Rev1 (VStr (lit "hi"))
               scenario_A (VStr (lit "gemini-pro")))
  = Returns (error_reply (node (Some (lit "key")) None unreachable)
                         (ProviderError (lit "fetch failed"))).
Proof.
  apply (provider_failure_caught (node (Some (lit "key")) None unreachable) Rev1
           (VStr (lit "hi")) scenario_A (VStr (lit "gemini-pro"))
           (GeminiCall (lit "gemini-2.5-pro") (lit "You are Indresh 2.0")
                       user_hello (VStr (lit "hi")))).
  - left. reflexivity.
  - reflexivity.
Defined.

Lemma falsy_model_is_gemini_witness :
  chat (node (Some (lit "key")) None unreachable) Rev1 (VStr (lit "hi")) scenario_A VNull
  = chat (node (Some (lit "key")) None unreachable) Rev1 (VStr (lit "hi")) scenario_A
         (VStr (lit "gemini")).
Proof.
  apply (falsy_model_is_gemini (node (Some (lit "key")) None unreachable)).
  reflexivity.
Defined.

Lemma ascii_case_insensitive_witness :
  chat (node (Some (lit "key")) None unreachable) Rev1 (VStr (lit "hi")) scenario_A
       (VStr (lit "gemini-flash"))
  = chat (node (Some (lit "key")) None unreachable) Rev1 (VStr (lit "hi")) scenario_A
         (VStr (lit "Gemini-FLASH")).
Proof.
  apply (ascii_case_insensitive (node (Some (lit "key")) None unreachable));
    reflexivity.
Defined.

Lemma secondary_first_choice_witness :
  result (chat (node None (Some (lit "key"))
                  (answering (VObj [(lit "choices",
                     VArr [VObj [(lit "message",
                       VObj [(lit "content", VStr (lit "namaste"))])]])])))
               Rev1 (VStr (lit "hi")) scenario_A (VStr (lit "groq-like-string")))
  = Returns (output (VStr (lit "namaste")) (Some (lit "Indresh (Turbo)"))).
Proof.
  eapply (secondary_first_choice
            (node None (Some (lit "key"))
               (answering (VObj [(lit "choices",
                  VArr [VObj [(lit "message",
                    VObj [(lit "content", VStr (lit "namaste"))])]])])))
            Rev1 (VStr (lit "hi")) scenario_A (lit "groq-like-string")).
  - discriminate.
  - reflexivity.
  - left. reflexivity.
  - reflexivity.
  - reflexivity.
  - reflexivity.
Defined.

(** * public/client.js *)

Lemma sendMessage_begin_sent (modelSelect : option jsstring) (p p' : page)
    (text : jsstring) (body : value) :
  sendMessage_begin modelSelect p text = (p', Some body) ->
  pending p = false /\
  exists c trimmed d model,
    trim text = c :: trimmed /\
    body = VObj [(lit "message", VStr (c :: trimmed));
                 (lit "conversation_id", VStr (lit "diag"));
                 (lit "model", VStr (d :: model))] /\
    p' = Page true [] true (setStatus (lit "Sending...") false)
              (bubbles p ++ [addMessage (lit "You") (VStr (c :: trimmed)) true]).
Proof.
  unfold sendMessage_begin.
  destruct (pending p); [discriminate|].
  destruct (trim text) as [|c trimmed]; [discriminate|].
  intros H. injection H as <- <-. split; [reflexivity|].
  destruct modelSelect as [[|d v]|]; [exists c, trimmed, 100, (lit "eepseek_r1_0528")
                                     | exists c, trimmed, d, v
                                     | exists c, trimmed, 100, (lit "eepseek_r1_0528")];
    repeat split.
Qed.

(** While a send is pending, and on text that is blank, [sendMessage] does
    nothing: the page is unchanged and no request is made. *)
Theorem sendMessage_begin_ignored (modelSelect : option jsstring) (p : page)
    (text : jsstring) :
  pending p = true \/ blank text = true ->
  sendMessage_begin modelSelect p text = (p, None).
Proof.
  unfold sendMessage_begin. intros [-> | H]; [reflexivity|].
  apply trim_nil in H. rewrite H. now destruct (pending p).
Qed.

Lemma sendMessage_begin_ignored_witness :
  sendMessage_begin None fresh_page (lit "   ") = (fresh_page, None).
Proof.
  apply (sendMessage_begin_ignored None fresh_page (lit "   ")).
  right. reflexivity.
Defined.

(** On text that is not blank, with no send pending, [sendMessage] posts the
    trimmed text with the conversation "diag" and a model that is not empty,
    the selected one or the default, and nothing else: no history. It shows
    the trimmed text as a message of the user, empties the input and
    disables the button. *)
Lemma sendMessage_begin_request (modelSelect : option jsstring) (p : page)
    (text : jsstring) :
  pending p = false ->
  blank text = false ->
  exists model,
    model <> [] /\
    (modelSelect = Some model \/
     (model = DEFAULT_MODEL /\ (modelSelect = None \/ modelSelect = Some []))) /\
    sendMessage_begin modelSelect p text =
    (Page true [] true (setStatus (lit "Sending...") false)
          (bubbles p ++ [addMessage (lit "You") (VStr (trim text)) true]),
     Some (VObj [(lit "message", VStr (trim text));
                 (lit "conversation_id", VStr (lit "diag"));
                 (lit "model", VStr model)])).
Proof.
  intros Hp Hb. unfold sendMessage_begin. rewrite Hp.
  destruct (trim text) as [|c trimmed] eqn:T.
  - apply trim_nil in T. congruence.
  - destruct modelSelect as [[|d v]|].
    + exists DEFAULT_MODEL. repeat split; [discriminate | auto].
    + exists (d :: v). repeat split; [discriminate | auto].
    + exists DEFAULT_MODEL. repeat split; [discriminate | auto].
Qed.

Section ClientAndServer.

Variable B : browser.
Variable E : environment.

Lemma settle_try_assistant (f : fetched) :
  exists text, fst (settle_try B f) = addMessage (lit "Indresh 2.0") text false.
Proof.
  unfold settle_try, network_error.
  destruct f as [err | [|] status [txt|err]]; simpl; eauto.
  destruct (JSON_parse B txt) as [data|err]; simpl; eauto.
  destruct (get data (lit "error")) as [error|err]; simpl; eauto.
  destruct (truthy error); simpl; eauto.
Qed.

(** However [fetch] settles, rejected, refused or answered with any body,
    the send ends with [pending] cleared and the button enabled, the input
    untouched and exactly one more message, shown as one of the assistant. *)
Theorem sendMessage_settle_finally (p : page) (f : fetched) :
  pending (sendMessage_settle B p f) = false /\
  send_disabled (sendMessage_settle B p f) = false /\
  input_value (sendMessage_settle B p f) = input_value p /\
  exists text,
    bubbles (sendMessage_settle B p f)
    = bubbles p ++ [Bubble (lit "message ai") (lit "Indresh 2.0") text].
Proof.
  unfold sendMessage_settle.
  destruct (settle_try_assistant f) as (text & H).
  destruct (settle_try B f) as [b s]. simpl in H. subst b.
  repeat split. exists text. reflexivity.
Qed.

Lemma settle_try_output (txt : jsstring) (status : Z) (content : value)
    (via : option jsstring) :
  JSON_parse B txt = Returns (output content via) ->
  truthy content = true ->
  settle_try B (Responded true status (Returns txt))
  = (addMessage (lit "Indresh 2.0") content false,
     setStatus (lit "Connected") false).
Proof.
  intros Hp Ht. unfold settle_try. simpl. rewrite Hp. simpl.
  unfold shown_reply.
  assert (Ho : field (output content via) (lit "output")
               = VObj ([(lit "role", VStr (lit "assistant")); (lit "content", content)]
                       ++ match via with
                          | Some label => [(lit "via", VStr label)]
                          | None => []
                          end)) by reflexivity.
  rewrite Ho.
  assert (Hc : forall rest,
             field (VObj ([(lit "role", VStr (lit "assistant"));
                           (lit "content", content)] ++ rest)) (lit "content")
             = content) by reflexivity.
  rewrite Hc. simpl truthy at 1. now rewrite Ht.
Qed.

(** A reply of the handler whose content is truthy is shown as it is, as a
    message of the assistant, and the status becomes "Connected". *)
Theorem reply_shown (p : page) (txt : jsstring) (status : Z) (content : value)
    (via : option jsstring) :
  JSON_parse B txt = Returns (output content via) ->
  truthy content = true ->
  sendMessage_settle B p (Responded true status (Returns txt))
  = Page false (input_value p) false (setStatus (lit "Connected") false)
         (bubbles p ++ [addMessage (lit "Indresh 2.0") content false]).
Proof.
  intros Hp Ht. unfold sendMessage_settle.
  now rewrite (settle_try_output txt status content via Hp Ht).
Qed.

(** The failures that the handler reports in its reply, a missing key or a
    caught exception, reach the user as ordinary messages of the assistant
    under the status "Connected", which is not an error status. *)
Theorem failure_reply_shown_connected (p : page) (txt : jsstring) (status : Z)
    (v : value) :
  v = key_missing \/ (exists e, v = error_reply E e) ->
  JSON_parse B txt = Returns v ->
  api_status (sendMessage_settle B p (Responded true status (Returns txt)))
  = StatusLine (lit "Connected") [] (lit "block") /\
  exists content,
    v = output content None /\
    bubbles (sendMessage_settle B p (Responded true status (Returns txt)))
    = bubbles p ++ [Bubble (lit "message ai") (lit "Indresh 2.0") content].
Proof.
  intros Hv Hp. unfold sendMessage_settle.
  destruct Hv as [-> | (e & ->)].
  - rewrite (settle_try_output txt status _ None Hp eq_refl). simpl.
    split; [reflexivity|]. eexists. split; reflexivity.
  - rewrite (settle_try_output txt status _ None Hp eq_refl). simpl.
    split; [reflexivity|]. eexists. split; reflexivity.
Qed.

(** Every request that the client sends is answered by the handler: its
    model is a string and it carries no history, so neither statement before
    the [try] block throws. *)
Theorem client_request_answered (modelSelect : option jsstring) (p p' : page)
    (text : jsstring) (body : value) (rev : revision) :
  sendMessage_begin modelSelect p text = (p', Some body) ->
  exists reply, result (post_api_chat E rev body) = Returns reply.
Proof.
  intros H.
  destruct (sendMessage_begin_sent _ _ _ _ _ H)
    as (_ & c & trimmed & d & model & _ & -> & _).
  unfold post_api_chat.
  apply (chat_replies E rev _ _ _ (toLowerCase E (d :: model)) []); reflexivity.
Qed.

(** No request of the client reaches the secondary provider: the client
    sends no history, so on the secondary path [history.map] throws before
    the call. A call that is made goes to the primary provider, with the
    empty history and the trimmed text. *)
Theorem client_request_calls (modelSelect : option jsstring) (p p' : page)
    (text : jsstring) (body : value) (rev : revision) (c : call) :
  sendMessage_begin modelSelect p text = (p', Some body) ->
  In c (calls (post_api_chat E rev body)) ->
  exists target,
    c = GeminiCall target (SYSTEM_INSTRUCTION_INDRESH E rev) [] (VStr (trim text)).
Proof.
  intros H.
  destruct (sendMessage_begin_sent _ _ _ _ _ H)
    as (_ & a & trimmed & d & model & -> & -> & _).
  unfold post_api_chat.
  change (field _ (lit "message")) with (VStr (a :: trimmed)).
  change (field _ (lit "history")) with VUndefined.
  change (field _ (lit "model")) with (VStr (d :: model)).
  unfold chat.
  change (requestedType E (VStr (d :: model)))
    with (Returns (toLowerCase E (d :: model))).
  change (sanitizeHistory VUndefined) with (@Returns (list formatted_turn) []).
  cbv iota. rewrite catching_calls. unfold try_block.
  destruct (select_provider rev (toLowerCase E (d :: model))) as [target|].
  - destruct (genAI E); simpl; [|contradiction].
    intros [<- | []]. eauto.
  - destruct (str_eqb (GROQ_KEY E) []); simpl; contradiction.
Qed.

End ClientAndServer.

Lemma reply_shown_witness :
  sendMessage_settle (parsing_as (output (VStr (lit "namaste")) (Some (lit "Indresh (Turbo)"))))
    fresh_page (Responded true 200%Z (Returns (lit "{}")))
  = Page false (input_value fresh_page) false (setStatus (lit "Connected") false)
         (bubbles fresh_page
          ++ [addMessage (lit "Indresh 2.0") (VStr (lit "namaste")) false]).
Proof.
  apply (reply_shown
           (parsing_as (output (VStr (lit "namaste")) (Some (lit "Indresh (Turbo)"))))
           fresh_page (lit "{}") 200%Z (VStr (lit "namaste"))
           (Some (lit "Indresh (Turbo)"))); reflexivity.
Defined.

Lemma failure_reply_shown_connected_witness :
  api_status (sendMessage_settle (parsing_as key_missing) fresh_page
                (Responded true 200%Z (Returns (lit "{}"))))
  = StatusLine (lit "Connected") [] (lit "block") /\
  exists content,
    key_missing = output content None /\
    bubbles (sendMessage_settle (parsing_as key_missing) fresh_page
               (Responded true 200%Z (Returns (lit "{}"))))
    = bubbles fresh_page ++ [Bubble (lit "message ai") (lit "Indresh 2.0") content].
Proof.
  apply (failure_reply_shown_connected (parsing_as key_missing)
           (node None None unreachable) fresh_page (lit "{}") 200%Z key_missing).
  - left. reflexivity.
  - reflexivity.
Defined.

Lemma client_request_answered_witness :
  exists reply,
    result (post_api_chat (node None (Some (lit "key")) unreachable) Rev1
              (VObj [(lit "message", VStr (lit "namaste"));
                     (lit "conversation_id", VStr (lit "diag"));
                     (lit "model", VStr DEFAULT_MODEL)]))
    = Returns reply.
Proof.
  apply (client_request_answered (node None (Some (lit "key")) unreachable)
           None fresh_page
           (Page true [] true (setStatus (lit "Sending...") false)
                 [addMessage (lit "You") (VStr (lit "namaste")) true])
           (lit " namaste ")).
  reflexivity.
Defined.

Lemma client_request_calls_witness :
  exists target,
    GeminiCall (lit "gemini-2.5-flash") (lit "You are Indresh 2.0") []
               (VStr (lit "namaste"))
    = GeminiCall target
        (SYSTEM_INSTRUCTION_INDRESH (node (Some (lit "key")) None unreachable) Rev1)
        [] (VStr (trim (lit " namaste "))).
Proof.
  apply (client_request_calls (node (Some (lit "key")) None unreachable)
           (Some (lit "gemini-flash")) fresh_page
           (Page true [] true (setStatus (lit "Sending...") false)
                 [addMessage (lit "You") (VStr (lit "namaste")) true])
           (lit " namaste ")
           (VObj [(lit "message", VStr (lit "namaste"));
                  (lit "conversation_id", VStr (lit "diag"));
                  (lit "model", VStr (lit "gemini-flash"))])
           Rev1).
  - reflexivity.
  - left. reflexivity.
Defined.

(** ** The theme *)

(** The theme that a click leaves is the one that the next load restores. *)
Theorem theme_survives_reload (t : theme_state) :
  applySavedTheme (toggle_theme t) = toggle_theme t.
Proof.
  unfold toggle_theme. destruct (data_theme t) as [cur|]; [|reflexivity].
  destruct (str_eqb cur (lit "light")); reflexivity.
Qed.

(** After a first click, two more clicks restore both the attribute and the
    stored entry. *)
Theorem theme_toggle_twice (t : theme_state) :
  toggle_theme (toggle_theme (toggle_theme t)) = toggle_theme t.
Proof.
  destruct t as [[cur|] saved]; unfold toggle_theme; simpl; [|reflexivity].
  destruct (str_eqb cur (lit "light")); reflexivity.
Qed.
